(** * QR attendance portal: token issuance, token validation and check-in

    A shallow embedding of the token life cycle of [qr_attendance/app.py]:
    the SQLAlchemy models as records, the database as a record of tables
    (lists of rows in insertion order), and the two request handlers
    [admin_generate_qr] (issuance) and [student_scan] (validation on GET,
    check-in on POST) as functions from a database, the clock readings and
    the request to a response and the database after the request. *)

From Stdlib Require Import ZArith List String Ascii Bool Lia.
From Stdlib Require Import Decimal DecimalString DecimalZ.
Import ListNotations.

Local Open Scope string_scope.
Local Open Scope list_scope.
Local Open Scope Z_scope.

(** ** Time *)

(** A [datetime] is a number of microseconds since the epoch, the resolution
    of Python's [datetime]. *)
Definition datetime := Z.

Definition timedelta_seconds (seconds : Z) : Z := seconds * 1000000.

(** ** Models *)

Module Admin.
Record t := mk {
  id : Z;
  username : string;
  password_hash : string
}.
End Admin.

Module Teacher.
Record t := mk {
  id : Z;
  name : string;
  username : string;
  password_hash : string
}.
End Teacher.

Module Student.
Record t := mk {
  id : Z;
  roll_number : string;
  name : string;
  batch : string;
  course : string;
  year : string;
  device_id : option string
}.
End Student.

Module ClassSession.
Record t := mk {
  id : Z;
  course : string;
  batch : string;
  room : string;
  teacher_id : Z;
  date : Z;
  start_time : Z;
  end_time : Z
}.
End ClassSession.

Module QRSession.
Record t := mk {
  id : Z;
  class_session_id : Z;
  token : string;
  created_at : datetime;
  expires_at : datetime;
  active : bool
}.

(** The effect of [update({"active": False})] on one row. *)
Definition deactivate (q : t) : t :=
  mk (id q) (class_session_id q) (token q) (created_at q) (expires_at q) false.
End QRSession.

Module Attendance.
Record t := mk {
  id : Z;
  student_id : Z;
  class_session_id : Z;
  timestamp : datetime;
  status : string
}.
End Attendance.

(** ** The database *)

Record db := mkdb {
  admins : list Admin.t;
  teachers : list Teacher.t;
  students : list Student.t;
  class_sessions : list ClassSession.t;
  qr_sessions : list QRSession.t;
  attendance : list Attendance.t
}.

Definition empty_db : db := mkdb [] [] [] [] [] [].

(** Integer primary keys are assigned by the engine: one more than the
    largest key in the table, 1 for an empty table. *)
Definition fresh_id (ids : list Z) : Z := 1 + fold_right Z.max 0 ids.

(** The scan URL carries [qs.id] formatted by an f-string; the engine
    coerces the text of [sid] back to an integer key when [query.get] looks
    it up.  [pk_of_string] is that coercion on the decimal numerals, the
    texts that a scan URL carries.  The engine reads other numeric text as a
    key as well (a text such as 2.0 as the key 2), which [pk_of_string] does
    not: where a lookup fails here on a text that is no decimal numeral,
    nothing is said about the code, and the properties that speak of a
    missing token speak of keys written by [str]. *)
Definition str (z : Z) : string := NilZero.string_of_int (Z.to_int z).

Definition pk_of_string (s : string) : option Z :=
  option_map Z.of_int (NilZero.int_of_string s).

(** [ClassSession.query.get(cid)] and the [qs.class_session] relationship. *)
Definition ClassSession_get (st : db) (cid : Z) : option ClassSession.t :=
  find (fun c => ClassSession.id c =? cid) (class_sessions st).

(** [QRSession.query.get(sid)], [sid] being the text of the query argument. *)
Definition QRSession_get (st : db) (sid : string) : option QRSession.t :=
  match pk_of_string sid with
  | Some k => find (fun q => QRSession.id q =? k) (qr_sessions st)
  | None => None
  end.

(** [Student.query.filter_by(roll_number=, batch=, course=).first()] *)
Definition Student_filter_by (roll batch course : string) (s : Student.t) : bool :=
  String.eqb (Student.roll_number s) roll
  && String.eqb (Student.batch s) batch
  && String.eqb (Student.course s) course.

Definition Student_first (st : db) (roll batch course : string) : option Student.t :=
  find (Student_filter_by roll batch course) (students st).

(** [Attendance.query.filter_by(student_id=, class_session_id=).first()] *)
Definition Attendance_filter_by (student_id class_session_id : Z) (a : Attendance.t) : bool :=
  (Attendance.student_id a =? student_id)
  && (Attendance.class_session_id a =? class_session_id).

Definition Attendance_first (st : db) (student_id class_session_id : Z) : option Attendance.t :=
  find (Attendance_filter_by student_id class_session_id) (attendance st).

(** [QRSession.query.filter_by(class_session_id=cid, active=True)
      .update({"active": False})] *)
Definition QRSession_deactivate_for (cid : Z) (q : QRSession.t) : QRSession.t :=
  if (QRSession.class_session_id q =? cid) && QRSession.active q
  then QRSession.deactivate q else q.

Definition set_qr_sessions (st : db) (l : list QRSession.t) : db :=
  mkdb (admins st) (teachers st) (students st) (class_sessions st) l (attendance st).

Definition set_attendance (st : db) (l : list Attendance.t) : db :=
  mkdb (admins st) (teachers st) (students st) (class_sessions st) (qr_sessions st) l.

(** ** Requests and responses *)

Inductive http_method := GET | HEAD | POST.

Record request := mkreq {
  method : http_method;
  url : string;
  args_sid : option string;      (* request.args.get("sid") *)
  args_token : option string;    (* request.args.get("token") *)
  form_roll : option string      (* request.form.get("roll") *)
}.

(** What a handler returns.  Messages passed to [flash] before a redirect
    are kept with it, as (message, category) pairs.  The page rendered by
    [admin_generate_qr] is kept as the two query arguments its QR image
    encodes, the expiry and the class session. *)
Inductive response :=
| Plain (body : string) (status_code : Z)
| Abort (status_code : Z)
| Redirect (location : string) (flashed : list (string * string))
| Raise (exception : string)
| Render_admin_qr (sid token : string) (expires : datetime)
                  (class_session : ClassSession.t)
| Render_student_scan (class_session : option ClassSession.t)
                      (qr_session : QRSession.t)
| Render_student_success (student : Student.t) (class_session : ClassSession.t)
                         (qr_session : QRSession.t).

(** Python truth value of an optional string: [None] and [""] are false. *)
Definition truthy (o : option string) : bool :=
  match o with
  | Some (String _ _) => true
  | _ => false
  end.

Definition text (o : option string) : string :=
  match o with
  | Some s => s
  | None => ""
  end.

(** ** Handlers *)

(** [session.get("role") == role] *)
Definition login_required (session_role : option string) (role : string) : bool :=
  match session_role with
  | Some r => String.eqb r role
  | None => false
  end.

(** [/admin/generate_qr/<int:cid>].  [token_urlsafe] is the value that
    [secrets.token_urlsafe(16)] returns in this request. *)
Definition admin_generate_qr (st : db) (session_role : option string)
    (utcnow : datetime) (token_urlsafe : string) (cid : Z) : response * db :=
  if negb (login_required session_role "admin") then (Redirect "/" [], st)
  else
    match ClassSession_get st cid with
    | None => (Abort 404, st)
    | Some session_obj =>
        let updated := map (QRSession_deactivate_for cid) (qr_sessions st) in
        let token := token_urlsafe in
        let now := utcnow in
        let expiry := now + timedelta_seconds 30 in
        let qs := QRSession.mk (fresh_id (map QRSession.id updated))
                               cid token now expiry true in
        (Render_admin_qr (str (QRSession.id qs)) token expiry session_obj,
         set_qr_sessions st (updated ++ [qs]))
    end.

(** [/scan].  [utcnow] is the clock read by the expiry test; [utcnow_default]
    is the clock read by the [timestamp] column default when the new
    attendance row is written. *)
Definition student_scan (st : db) (utcnow utcnow_default : datetime)
    (req : request) : response * db :=
  if negb (truthy (args_sid req)) || negb (truthy (args_token req))
  then (Plain "Invalid QR parameters" 400, st)
  else
    let sid := text (args_sid req) in
    let token := text (args_token req) in
    match QRSession_get st sid with
    | None => (Plain "Invalid or inactive QR session" 400, st)
    | Some qs =>
        if negb (String.eqb (QRSession.token qs) token)
           || negb (QRSession.active qs)
        then (Plain "Invalid or inactive QR session" 400, st)
        else if utcnow >? QRSession.expires_at qs
        then (Plain "QR expired" 400, st)
        else
          let class_sess := ClassSession_get st (QRSession.class_session_id qs) in
          match method req with
          | POST =>
              if negb (truthy (form_roll req))
              then (Redirect (url req) [("Please enter roll number", "danger")], st)
              else
                let roll := text (form_roll req) in
                match class_sess with
                | None => (Raise "AttributeError", st)
                | Some class_sess =>
                    match Student_first st roll (ClassSession.batch class_sess)
                                        (ClassSession.course class_sess) with
                    | None =>
                        (Redirect (url req)
                           [("Invalid roll number for this session", "danger")], st)
                    | Some student =>
                        match Attendance_first st (Student.id student)
                                               (ClassSession.id class_sess) with
                        | Some _ =>
                            (Plain "Attendance already marked for this session" 200, st)
                        | None =>
                            let a := Attendance.mk
                                       (fresh_id (map Attendance.id (attendance st)))
                                       (Student.id student)
                                       (ClassSession.id class_sess)
                                       utcnow_default "Present" in
                            (Render_student_success student class_sess qs,
                             set_attendance st (attendance st ++ [a]))
                        end
                    end
                end
          | _ => (Render_student_scan class_sess qs, st)
          end
    end.

(** ** The operations of the specification, as the handlers provide them *)

(** [validate(token_id, secret)]: the scan form request, [GET /scan].  The
    request URL is only the target of the redirects of a rejected form; it
    is written "/scan" in these two requests. *)
Definition validate (st : db) (now : datetime) (token_id secret : option string)
    : response * db :=
  student_scan st now now (mkreq GET "/scan" token_id secret None).

(** [check_in(token_id, secret, roll_number)]: the form submission,
    [POST /scan]. *)
Definition check_in (st : db) (now now_default : datetime)
    (token_id secret roll_number : option string) : response * db :=
  student_scan st now now_default (mkreq POST "/scan" token_id secret roll_number).

(** [issue(session_id)]: an administrator's request for a new code. *)
Definition issue (st : db) (now : datetime) (secret : string) (session_id : Z)
    : response * db :=
  admin_generate_qr st (Some "admin") now secret session_id.

(** ** Vocabulary of the properties *)

(** The rows selected by [filter_by(class_session_id=cid, active=True)]. *)
Definition active_for (cid : Z) (q : QRSession.t) : bool :=
  (QRSession.class_session_id q =? cid) && QRSession.active q.

(** At most one active token per class session. *)
Definition at_most_one_active (st : db) : Prop :=
  forall cid, (List.length (filter (active_for cid) (qr_sessions st)) <= 1)%nat.

(** Every stored token has a non-empty secret and belongs to a stored class
    session: what issuance writes. *)
Definition wf_store (st : db) : Prop :=
  forall q, In q (qr_sessions st) ->
    QRSession.token q <> ""
    /\ ClassSession_get st (QRSession.class_session_id q) <> None.

(** [n] successive calls of [validate] with the same arguments, each on the
    database left by the one before. *)
Fixpoint validate_repeatedly (n : nat) (st : db) (now : datetime)
    (token_id secret : option string) : list response * db :=
  match n with
  | O => ([], st)
  | S n =>
      let (r, st1) := validate st now token_id secret in
      let (rs, st2) := validate_repeatedly n st1 now token_id secret in
      (r :: rs, st2)
  end.

(** One later scan: the two clock readings and the token reference used. *)
Record scan_call := mkcall {
  call_now : datetime;
  call_now_default : datetime;
  call_token_id : option string;
  call_secret : option string
}.

(** Successive check-ins with one roll number, each on the database left by
    the one before. *)
Fixpoint check_in_all (st : db) (roll_number : option string)
    (calls : list scan_call) : list response * db :=
  match calls with
  | [] => ([], st)
  | c :: calls =>
      let (r, st1) := check_in st (call_now c) (call_now_default c)
                               (call_token_id c) (call_secret c) roll_number in
      let (rs, st2) := check_in_all st1 roll_number calls in
      (r :: rs, st2)
  end.

(** A token reference that passes the tests of [student_scan]: both query
    arguments present, the row found, the secret equal, the row active and
    not expired. *)
Record accepted (st : db) (now : datetime) (token_id secret : option string)
    (qs : QRSession.t) : Prop := {
  acc_sid : truthy token_id = true;
  acc_token : truthy secret = true;
  acc_get : QRSession_get st (text token_id) = Some qs;
  acc_secret : QRSession.token qs = text secret;
  acc_active : QRSession.active qs = true;
  acc_time : now <= QRSession.expires_at qs
}.

(** The answer to a repeated scan. *)
Definition already_marked : response :=
  Plain "Attendance already marked for this session" 200.

(** The two answers to a token that does not validate, and the answer to a
    roll number that is not accepted. *)
Definition invalid_or_inactive : response :=
  Plain "Invalid or inactive QR session" 400.

Definition qr_expired : response := Plain "QR expired" 400.

Definition invalid_roll : response :=
  Redirect "/scan" [("Invalid roll number for this session", "danger")].

(** *** The error kinds of the specification *)

Inductive validation_error := NotFound | SecretMismatch | Inactive | Expired.

(** The failure conditions that the specification of [validate] lists, in
    its order; [None] when none of them holds. *)
Definition spec_validation_error (st : db) (now : datetime)
    (token_id secret : string) : option validation_error :=
  match QRSession_get st token_id with
  | None => Some NotFound
  | Some qs =>
      if negb (String.eqb (QRSession.token qs) secret) then Some SecretMismatch
      else if negb (QRSession.active qs) then Some Inactive
      else if now >? QRSession.expires_at qs then Some Expired
      else None
  end.

(** A caller can tell from the result of [validate] which condition failed. *)
Definition validate_errors_distinguishable : Prop :=
  exists kind_of : response -> option validation_error,
  forall st now token_id secret k,
    token_id <> "" -> secret <> "" ->
    spec_validation_error st now token_id secret = Some k ->
    kind_of (fst (validate st now (Some token_id) (Some secret))) = Some k.

Inductive student_error := UnknownStudent | NotEligible.

(** The two failure conditions that the specification of [check_in] lists
    for the roll number, in its order: no student has it, or the student
    that has it is of another batch or course than the class session. *)
Definition spec_student_error (st : db) (roll : string) (cs : ClassSession.t)
    : option student_error :=
  match find (fun s => String.eqb (Student.roll_number s) roll) (students st) with
  | None => Some UnknownStudent
  | Some s =>
      if String.eqb (Student.batch s) (ClassSession.batch cs)
         && String.eqb (Student.course s) (ClassSession.course cs)
      then None else Some NotEligible
  end.

(** A caller can tell an unknown student from an ineligible one. *)
Definition student_errors_distinguishable : Prop :=
  exists kind_of : response -> option student_error,
  forall st now now_default token_id secret roll cs qs k,
    validate st now token_id secret = (Render_student_scan (Some cs) qs, st) ->
    roll <> "" ->
    spec_student_error st roll cs = Some k ->
    kind_of (fst (check_in st now now_default token_id secret (Some roll))) = Some k.

(** *** What the answers carry *)

(** The answer to a repeated scan refers to the record that the first scan
    created: some reading of the answer gives that record. *)
Definition already_marked_references_record : Prop :=
  exists record_of : response -> option Attendance.t,
  forall st now nd token_id secret roll s cs qs st1 a now' nd' token_id' secret' qs',
    check_in st now nd token_id secret roll = (Render_student_success s cs qs, st1) ->
    attendance st1 = attendance st ++ [a] ->
    validate st1 now' token_id' secret' = (Render_student_scan (Some cs) qs', st1) ->
    record_of (fst (check_in st1 now' nd' token_id' secret' roll)) = Some a.

(** A successful check-in returns the record it created: some reading of the
    answer gives that record. *)
Definition success_returns_record : Prop :=
  exists record_of : response -> option Attendance.t,
  forall st now nd token_id secret roll s cs qs st1 a,
    check_in st now nd token_id secret roll = (Render_student_success s cs qs, st1) ->
    attendance st1 = attendance st ++ [a] ->
    record_of (fst (check_in st now nd token_id secret roll)) = Some a.

(** *** A small database *)

Module Example.
Definition teacher1 : Teacher.t := Teacher.mk 1 "T. Rao" "rao" "pbkdf2".
Definition cs1 : ClassSession.t :=
  ClassSession.mk 1 "CS101" "B1" "R12" 1 20000 540 600.
Definition cs2 : ClassSession.t :=
  ClassSession.mk 2 "MA201" "B2" "R14" 1 20000 600 660.
Definition stu1 : Student.t := Student.mk 1 "R001" "Asha" "B1" "CS101" "2" None.
Definition stu2 : Student.t := Student.mk 2 "R002" "Ravi" "B2" "CS101" "2" None.
(** Token 1 was superseded by token 2; token 3 belongs to the other class. *)
Definition qr1 : QRSession.t := QRSession.mk 1 1 "tokA" 1000000 31000000 false.
Definition qr2 : QRSession.t := QRSession.mk 2 1 "tokB" 5000000 35000000 true.
Definition qr3 : QRSession.t := QRSession.mk 3 2 "tokC" 6000000 36000000 true.
Definition st0 : db :=
  mkdb [] [teacher1] [stu1; stu2] [cs1; cs2] [qr1; qr2; qr3] [].

(** Student 1 scans token 2 six seconds after the epoch. *)
Definition a1 : Attendance.t := Attendance.mk 1 1 1 6000001 "Present".
Definition st1 : db := set_attendance st0 [a1].

(** The same scan when the row is written four microseconds later. *)
Definition a1_later : Attendance.t := Attendance.mk 1 1 1 6000005 "Present".
Definition st1_later : db := set_attendance st0 [a1_later].

(** Later scans through the same token. *)
Definition later : list scan_call :=
  [mkcall 7000000 7000002 (Some "2") (Some "tokB");
   mkcall 9000000 9000003 (Some "2") (Some "tokB")].

(** A fourth code, for class session 1, forty seconds after the epoch. *)
Definition qr4 : QRSession.t := QRSession.mk 4 1 "tokD" 40000000 70000000 true.
Definition qr2' : QRSession.t := QRSession.mk 2 1 "tokB" 5000000 35000000 false.
Definition st4 : db := set_qr_sessions st0 [qr1; qr2'; qr3; qr4].
End Example.

(** * The other handlers *)

(** ** The login session *)

(** The two keys of Flask's [session] that the handlers use. *)
Module Session.
Record t := mk {
  role : option string;
  user_id : option Z
}.

(** [session.clear()] *)
Definition clear : t := mk None None.
End Session.

(** ** Forms and answers *)

(** [request.form.get] of each field of the student forms. *)
Record student_form := mkform {
  f_roll : option string;
  f_name : option string;
  f_batch : option string;
  f_course : option string;
  f_year : option string;
  f_device_id : option string
}.

(** A value handed to [csv.writer], or a piece of an f-string: text, an
    integer, [datetime.isoformat(sep=' ')] of an instant, [date.isoformat()]
    of a day. *)
Inductive cell :=
| Str (s : string)
| Int (z : Z)
| Iso_datetime (t : datetime)
| Iso_date (d : Z).

(** What the handlers of this part return: one of the answers above, a
    rendered template with its context, or a CSV attachment (the pieces of
    its file name and the rows written). *)
Inductive reply :=
| Http (r : response)
| login_html (flashed : list (string * string))
| admin_dashboard_html (total_students total_teachers total_sessions
                        total_attendance : nat)
| admin_add_student_html
| edit_student_html (student : Student.t)
| admin_add_teacher_html
| admin_create_session_html (teachers : list Teacher.t)
| export_attendance_html (sessions : list ClassSession.t)
| teacher_dashboard_html (sessions : list ClassSession.t)
| teacher_attendance_html (records : list Attendance.t)
| Csv (filename : list cell) (rows : list (list cell)).

(** What the handlers take from the libraries and the engine: the password
    check of werkzeug (the exception it raises, or its verdict) and the
    orderings of [order_by], whose treatment of ties is the engine's. *)
Record library := mklib {
  check_password_hash : string -> option string -> string + bool;
  order_by_name : list Teacher.t -> list Teacher.t;
  order_by_date_desc : list ClassSession.t -> list ClassSession.t;
  order_by_timestamp_desc : list Attendance.t -> list Attendance.t
}.

(** [filter_by(column=value)] on a text column that is not nullable: a
    missing form field compares with [IS NULL] and selects nothing. *)
Definition column_is (column : string) (value : option string) : bool :=
  match value with
  | Some v => String.eqb column v
  | None => false
  end.

Definition column_is_int (column : Z) (value : option Z) : bool :=
  match value with
  | Some v => column =? v
  | None => false
  end.

(** [x or None] *)
Definition or_None (x : option string) : option string :=
  if truthy x then x else None.

(** The day of an instant, [datetime.date()]; a [ClassSession.date] is a day
    counted likewise. *)
Definition date_of (t : datetime) : Z := t / 86400000000.

Definition set_admins (st : db) (l : list Admin.t) : db :=
  mkdb l (teachers st) (students st) (class_sessions st) (qr_sessions st)
       (attendance st).

Definition set_teachers (st : db) (l : list Teacher.t) : db :=
  mkdb (admins st) l (students st) (class_sessions st) (qr_sessions st)
       (attendance st).

Definition set_students (st : db) (l : list Student.t) : db :=
  mkdb (admins st) (teachers st) l (class_sessions st) (qr_sessions st)
       (attendance st).

Definition set_class_sessions (st : db) (l : list ClassSession.t) : db :=
  mkdb (admins st) (teachers st) (students st) l (qr_sessions st)
       (attendance st).

(** [Student.query.get_or_404(sid)], before the 404. *)
Definition Student_get (st : db) (sid : Z) : option Student.t :=
  find (fun s => Student.id s =? sid) (students st).

(** [Student.query.filter_by(roll_number=roll).first()] *)
Definition Student_by_roll (st : db) (roll : option string) : option Student.t :=
  find (fun s => column_is (Student.roll_number s) roll) (students st).

(** [Teacher.query.filter_by(username=username).first()] *)
Definition Teacher_by_username (st : db) (username : option string)
    : option Teacher.t :=
  find (fun t => column_is (Teacher.username t) username) (teachers st).

(** [Admin.query.filter_by(username=username).first()] *)
Definition Admin_by_username (st : db) (username : option string)
    : option Admin.t :=
  find (fun a => column_is (Admin.username a) username) (admins st).

(** ** Authentication *)

(** [create_default_admin()].  [password_hash] is the value that
    [generate_password_hash("admin123")] returns when it is called. *)
Definition create_default_admin (st : db) (password_hash : string) : db :=
  match admins st with
  | [] =>
      set_admins st
        (admins st
         ++ [Admin.mk (fresh_id (map Admin.id (admins st))) "admin" password_hash])
  | _ :: _ => st
  end.

(** [/]: the login form and its submission. *)
Definition login (lib : library) (st : db) (sess : Session.t)
    (meth : http_method) (login_type username password : option string)
    : reply * Session.t :=
  match meth with
  | POST =>
      let user :=
        if column_is "admin" login_type
        then option_map (fun a => (Admin.id a, Admin.password_hash a))
                        (Admin_by_username st username)
        else if column_is "teacher" login_type
        then option_map (fun t => (Teacher.id t, Teacher.password_hash t))
                        (Teacher_by_username st username)
        else None in
      let invalid := (login_html [("Invalid credentials", "danger")], sess) in
      match user with
      | Some (id, password_hash) =>
          match check_password_hash lib password_hash password with
          | inl exception => (Http (Raise exception), sess)
          | inr true =>
              (Http (Redirect (String.append "/"
                                 (String.append (text login_type) "/dashboard")) []),
               Session.mk login_type (Some id))
          | inr false => invalid
          end
      | None => invalid
      end
  | _ => (login_html [], sess)
  end.

(** [/logout] *)
Definition logout (sess : Session.t) : reply * Session.t :=
  (Http (Redirect "/" []), Session.clear).

(** ** Administration *)

(** [/admin/dashboard] *)
Definition admin_dashboard (st : db) (sess : Session.t) : reply :=
  if negb (login_required (Session.role sess) "admin") then Http (Redirect "/" [])
  else admin_dashboard_html (List.length (students st)) (List.length (teachers st))
                            (List.length (class_sessions st))
                            (List.length (attendance st)).

(** [/admin/add_student].  A form field that is missing makes the insert
    violate [nullable=False]. *)
Definition admin_add_student (st : db) (sess : Session.t) (meth : http_method)
    (url : string) (f : student_form) : reply * db :=
  if negb (login_required (Session.role sess) "admin")
  then (Http (Redirect "/" []), st)
  else
    match meth with
    | POST =>
        match Student_by_roll st (f_roll f) with
        | Some _ =>
            (Http (Redirect url [("This roll number already exists!", "danger")]), st)
        | None =>
            match f_roll f, f_name f, f_batch f, f_course f, f_year f with
            | Some roll, Some name, Some batch, Some course, Some year =>
                let s := Student.mk (fresh_id (map Student.id (students st)))
                                    roll name batch course year (f_device_id f) in
                (Http (Redirect "/admin/dashboard"
                         [("Student added successfully!", "success")]),
                 set_students st (students st ++ [s]))
            | _, _, _, _, _ => (Http (Raise "IntegrityError"), st)
            end
        end
    | _ => (admin_add_student_html, st)
    end.

(** [/admin/edit_student/<int:sid>] *)
Definition admin_edit_student (st : db) (sess : Session.t) (meth : http_method)
    (url : string) (sid : Z) (f : student_form) : reply * db :=
  if negb (login_required (Session.role sess) "admin")
  then (Http (Redirect "/" []), st)
  else
    match Student_get st sid with
    | None => (Http (Abort 404), st)
    | Some student =>
        match meth with
        | POST =>
            let new_roll := f_roll f in
            let commit :=
              match new_roll, f_name f, f_batch f, f_course f, f_year f with
              | Some roll, Some name, Some batch, Some course, Some year =>
                  let student' := Student.mk (Student.id student) roll name batch
                                             course year (or_None (f_device_id f)) in
                  (Http (Redirect "/admin/students"
                           [("Student updated successfully!", "success")]),
                   set_students st
                     (map (fun s => if Student.id s =? Student.id student
                                    then student' else s) (students st)))
              | _, _, _, _, _ => (Http (Raise "IntegrityError"), st)
              end in
            if negb (column_is (Student.roll_number student) new_roll)
            then
              match Student_by_roll st new_roll with
              | Some _ =>
                  (Http (Redirect url
                           [("Another student with same roll number exists!",
                             "danger")]), st)
              | None => commit
              end
            else commit
        | _ => (edit_student_html student, st)
        end
    end.

(** [/admin/delete_student/<int:sid>] *)
Definition admin_delete_student (st : db) (sess : Session.t) (sid : Z)
    : reply * db :=
  if negb (login_required (Session.role sess) "admin")
  then (Http (Redirect "/" []), st)
  else
    match Student_get st sid with
    | None => (Http (Abort 404), st)
    | Some student =>
        let kept := filter (fun a => negb (Attendance.student_id a
                                           =? Student.id student))
                           (attendance st) in
        let others := filter (fun s => negb (Student.id s =? Student.id student))
                             (students st) in
        (Http (Redirect "/admin/students"
                 [("Student deleted successfully!", "success")]),
         set_students (set_attendance st kept) others)
    end.

(** [/admin/add_teacher].  [hashed] is what [generate_password_hash(password)]
    does when [set_password] calls it: the exception it raises, or the hash. *)
Definition admin_add_teacher (st : db) (sess : Session.t) (meth : http_method)
    (url : string) (name username : option string) (hashed : string + string)
    : reply * db :=
  if negb (login_required (Session.role sess) "admin")
  then (Http (Redirect "/" []), st)
  else
    match meth with
    | POST =>
        match Teacher_by_username st username with
        | Some _ =>
            (Http (Redirect url [("Username already exists!", "danger")]), st)
        | None =>
            match hashed with
            | inl exception => (Http (Raise exception), st)
            | inr password_hash =>
                match name, username with
                | Some name, Some username =>
                    let t := Teacher.mk (fresh_id (map Teacher.id (teachers st)))
                                        name username password_hash in
                    (Http (Redirect "/admin/dashboard"
                             [("Teacher added successfully!", "success")]),
                     set_teachers st (teachers st ++ [t]))
                | _, _ => (Http (Raise "IntegrityError"), st)
                end
            end
        end
    | _ => (admin_add_teacher_html, st)
    end.

(** [/admin/create_session].  [teacher], [date], [start] and [end_] are what
    [int] and [datetime.strptime] make of the form fields: the exception
    raised, or the value. *)
Definition admin_create_session (lib : library) (st : db) (sess : Session.t)
    (meth : http_method) (course batch room : option string)
    (teacher date start end_ : string + Z) : reply * db :=
  if negb (login_required (Session.role sess) "admin")
  then (Http (Redirect "/" []), st)
  else
    let teachers := order_by_name lib (teachers st) in
    match meth with
    | POST =>
        match teacher, date, start, end_ with
        | inl exception, _, _, _ => (Http (Raise exception), st)
        | inr _, inl exception, _, _ => (Http (Raise exception), st)
        | inr _, inr _, inl exception, _ => (Http (Raise exception), st)
        | inr _, inr _, inr _, inl exception => (Http (Raise exception), st)
        | inr teacher_id, inr date, inr start_time, inr end_time =>
            match course, batch, room with
            | Some course, Some batch, Some room =>
                let cs := ClassSession.mk
                            (fresh_id (map ClassSession.id (class_sessions st)))
                            course batch room teacher_id date start_time end_time in
                (Http (Redirect "/admin/dashboard" [("Session created!", "success")]),
                 set_class_sessions st (class_sessions st ++ [cs]))
            | _, _, _ => (Http (Raise "IntegrityError"), st)
            end
        end
    | _ => (admin_create_session_html teachers, st)
    end.

(** ** Export *)

(** A loop that stops at the first element on which the body raises. *)
Fixpoint for_each {A B : Type} (body : A -> option B) (l : list A)
    : option (list B) :=
  match l with
  | [] => Some []
  | x :: l =>
      match body x with
      | None => None
      | Some y =>
          match for_each body l with
          | None => None
          | Some ys => Some (y :: ys)
          end
      end
  end.

(** The [r.student] and [r.class_session] relationships. *)
Definition Attendance_student (st : db) (r : Attendance.t) : option Student.t :=
  Student_get st (Attendance.student_id r).

Definition Attendance_class_session (st : db) (r : Attendance.t)
    : option ClassSession.t :=
  ClassSession_get st (Attendance.class_session_id r).

Definition session_header : list cell :=
  [Str "Roll Number"; Str "Student Name"; Str "Batch"; Str "Course";
   Str "Timestamp"; Str "Status"; Str "Session Course"; Str "Session Batch";
   Str "Room"; Str "Date"].

(** The row of one record in the export of class session [cs]; [None] when
    [r.student] is [None] and reading its attributes raises. *)
Definition session_row (st : db) (cs : ClassSession.t) (r : Attendance.t)
    : option (list cell) :=
  match Attendance_student st r with
  | None => None
  | Some s =>
      Some [Str (Student.roll_number s); Str (Student.name s);
            Str (Student.batch s); Str (Student.course s);
            Iso_datetime (Attendance.timestamp r); Str (Attendance.status r);
            Str (ClassSession.course cs); Str (ClassSession.batch cs);
            Str (ClassSession.room cs); Iso_date (ClassSession.date cs)]
  end.

Definition all_header : list cell :=
  [Str "SessionID"; Str "Session Course"; Str "Session Batch"; Str "Room";
   Str "Session Date"; Str "Roll Number"; Str "Student Name"; Str "Timestamp";
   Str "Status"].

(** The row of one record in the export of all records. *)
Definition all_row (st : db) (r : Attendance.t) : option (list cell) :=
  match Attendance_class_session st r, Attendance_student st r with
  | Some cs, Some s =>
      Some [Int (ClassSession.id cs); Str (ClassSession.course cs);
            Str (ClassSession.batch cs); Str (ClassSession.room cs);
            Iso_date (ClassSession.date cs); Str (Student.roll_number s);
            Str (Student.name s); Iso_datetime (Attendance.timestamp r);
            Str (Attendance.status r)]
  | _, _ => None
  end.

(** [/admin/export].  [session_id] is what [int] makes of the form field. *)
Definition admin_export (lib : library) (st : db) (sess : Session.t)
    (meth : http_method) (utcnow : datetime) (mode : option string)
    (session_id : string + Z) : reply :=
  if negb (login_required (Session.role sess) "admin") then Http (Redirect "/" [])
  else
    let sessions := order_by_date_desc lib (class_sessions st) in
    match meth with
    | POST =>
        if column_is "session" mode
        then
          match session_id with
          | inl exception => Http (Raise exception)
          | inr sid =>
              match ClassSession_get st sid with
              | None => Http (Abort 404)
              | Some cs =>
                  let records :=
                    filter (fun r => Attendance.class_session_id r
                                     =? ClassSession.id cs) (attendance st) in
                  match for_each (session_row st cs) records with
                  | None => Http (Raise "AttributeError")
                  | Some rows =>
                      Csv [Str "attendance_session_"; Int (ClassSession.id cs);
                           Str "_"; Iso_date (ClassSession.date cs); Str ".csv"]
                          (session_header :: rows)
                  end
              end
          end
        else
          let records := order_by_timestamp_desc lib (attendance st) in
          match for_each (all_row st) records with
          | None => Http (Raise "AttributeError")
          | Some rows =>
              Csv [Str "attendance_all_"; Iso_date (date_of utcnow); Str ".csv"]
                  (all_header :: rows)
          end
    | _ => export_attendance_html sessions
    end.

(** ** Teacher panel *)

(** [/teacher/dashboard] *)
Definition teacher_dashboard (st : db) (sess : Session.t) (utcnow : datetime)
    : reply :=
  if negb (login_required (Session.role sess) "teacher") then Http (Redirect "/" [])
  else
    let teacher_id := Session.user_id sess in
    let today := date_of utcnow in
    teacher_dashboard_html
      (filter (fun c => column_is_int (ClassSession.teacher_id c) teacher_id
                        && (ClassSession.date c =? today))
              (class_sessions st)).

(** [/teacher/session/<int:cid>] *)
Definition teacher_view (st : db) (sess : Session.t) (cid : Z) : reply :=
  if negb (login_required (Session.role sess) "teacher") then Http (Redirect "/" [])
  else
    teacher_attendance_html
      (filter (fun a => Attendance.class_session_id a =? cid) (attendance st)).

(** ** The application as a transition system *)

(** One request that may write to the database, or the start-up call of
    [create_default_admin], handled on its own: what the handler reads and
    what it writes form one transition.  Requests that overlap, where
    another request writes between the reads and the write of this one, are
    not transitions of [step].  A code is issued with the secret of
    [secrets.token_urlsafe(16)], which is not empty. *)
Inductive step (lib : library) : db -> db -> Prop :=
| step_create_default_admin st h :
    step lib st (create_default_admin st h)
| step_admin_add_student st sess meth url f :
    step lib st (snd (admin_add_student st sess meth url f))
| step_admin_edit_student st sess meth url sid f :
    step lib st (snd (admin_edit_student st sess meth url sid f))
| step_admin_delete_student st sess sid :
    step lib st (snd (admin_delete_student st sess sid))
| step_admin_add_teacher st sess meth url name username hashed :
    step lib st (snd (admin_add_teacher st sess meth url name username hashed))
| step_admin_create_session st sess meth course batch room teacher date start end_ :
    step lib st (snd (admin_create_session lib st sess meth course batch room
                                           teacher date start end_))
| step_admin_generate_qr st role now tok cid :
    tok <> "" ->
    step lib st (snd (admin_generate_qr st role now tok cid))
| step_student_scan st now nd req :
    step lib st (snd (student_scan st now nd req)).

(** The databases that the application reaches from the empty one when it
    handles one request after another. *)
Inductive reachable (lib : library) : db -> Prop :=
| reach_empty : reachable lib empty_db
| reach_step st st' : reachable lib st -> step lib st st' -> reachable lib st'.

(** *** Integrity of the tables *)

Definition unique_roll_numbers (st : db) : Prop :=
  NoDup (map Student.roll_number (students st)).

Definition unique_usernames (st : db) : Prop :=
  NoDup (map Teacher.username (teachers st)).

Definition unique_keys (st : db) : Prop :=
  NoDup (map Student.id (students st))
  /\ NoDup (map ClassSession.id (class_sessions st))
  /\ NoDup (map QRSession.id (qr_sessions st))
  /\ NoDup (map Attendance.id (attendance st))
  /\ NoDup (map Teacher.id (teachers st)).

(** Every attendance row refers to a stored student and a stored class
    session. *)
Definition attendance_refers (st : db) : Prop :=
  forall a, In a (attendance st) ->
    In (Attendance.student_id a) (map Student.id (students st))
    /\ In (Attendance.class_session_id a)
          (map ClassSession.id (class_sessions st)).

(** The pair that an attendance row records. *)
Definition attendance_pair (a : Attendance.t) : Z * Z :=
  (Attendance.student_id a, Attendance.class_session_id a).

(** At most one attendance row per (student, class session). *)
Definition one_record_per_pair (st : db) : Prop :=
  NoDup (map attendance_pair (attendance st)).

(** Whether some attendance row is of the student with this key. *)
Definition has_attendance (st : db) (student_id : Z) : bool :=
  existsb (fun a => Attendance.student_id a =? student_id) (attendance st).

(** What every reachable database satisfies. *)
Record integrity (st : db) : Prop := mkintegrity {
  int_keys : unique_keys st;
  int_roll_numbers : unique_roll_numbers st;
  int_usernames : unique_usernames st;
  int_refers : attendance_refers st;
  int_pairs : one_record_per_pair st;
  int_active : at_most_one_active st;
  int_wf : wf_store st
}.

(** *** A small installation *)

Module Install.
(** A password check that accepts the hash "hash:" followed by the password
    and raises on a missing password; orderings that keep the table order. *)
Definition lib : library :=
  mklib (fun h p => match p with
                    | Some pw => inr (String.eqb h (String.append "hash:" pw))
                    | None => inl "AttributeError"
                    end)
        (fun l => l) (fun l => l) (fun l => l).

Definition nobody : Session.t := Session.clear.
Definition as_admin : Session.t := Session.mk (Some "admin") (Some 1).
Definition as_teacher : Session.t := Session.mk (Some "teacher") (Some 1).

(** Start-up, then a teacher, a class session and two students. *)
Definition db1 : db := create_default_admin empty_db "hash:admin123".
Definition db2 : db :=
  snd (admin_add_teacher db1 as_admin POST "/admin/add_teacher"
         (Some "T. Rao") (Some "rao") (inr "hash:chalk")).
Definition db3 : db :=
  snd (admin_create_session lib db2 as_admin POST (Some "CS101") (Some "B1")
         (Some "R12") (inr 1) (inr 20000) (inr 540) (inr 600)).
Definition asha : student_form :=
  mkform (Some "R001") (Some "Asha") (Some "B1") (Some "CS101") (Some "2") None.
Definition ravi : student_form :=
  mkform (Some "R002") (Some "Ravi") (Some "B2") (Some "CS101") (Some "2") (Some "").
Definition meera : student_form :=
  mkform (Some "R003") (Some "Meera") (Some "B1") (Some "CS101") (Some "2") None.
Definition db4 : db :=
  snd (admin_add_student db3 as_admin POST "/admin/add_student" asha).
Definition db5 : db :=
  snd (admin_add_student
         (snd (admin_add_student db4 as_admin POST "/admin/add_student" ravi))
         as_admin POST "/admin/add_student" meera).
(** A code for the class session, and Asha's scan three seconds later. *)
Definition db6 : db :=
  snd (admin_generate_qr db5 (Some "admin") 1728000000000000 "tok1" 1).
Definition db7 : db :=
  snd (student_scan db6 1728000003000000 1728000003000001
         (mkreq POST "/scan" (Some "1") (Some "tok1") (Some "R001"))).

(** The rows that these requests have stored. *)
Definition cs1 : ClassSession.t :=
  ClassSession.mk 1 "CS101" "B1" "R12" 1 20000 540 600.
Definition stu1 : Student.t := Student.mk 1 "R001" "Asha" "B1" "CS101" "2" None.
Definition stu3 : Student.t := Student.mk 3 "R003" "Meera" "B1" "CS101" "2" None.
Definition qr1 : QRSession.t :=
  QRSession.mk 1 1 "tok1" 1728000000000000 1728000030000000 true.
End Install.

(** * Properties *)

(** ** Lists, keys and lookups *)

Section Find.
Context {A : Type}.
Variable p : A -> bool.

Lemma find_app_r (l l' : list A) :
  find p l = None -> find p (l ++ l') = find p l'.
Proof.
  induction l as [|y l IH]; simpl; [reflexivity|].
  destruct (p y); [discriminate|auto].
Qed.

Lemma forall_false_find_none (l : list A) :
  (forall x, In x l -> p x = false) -> find p l = None.
Proof.
  induction l as [|y l IH]; simpl; intros H; [reflexivity|].
  rewrite (H y (or_introl eq_refl)). apply IH. intros x Hx. apply H. now right.
Qed.

Lemma filter_none (l : list A) :
  find p l = None -> filter p l = [].
Proof.
  induction l as [|y l IH]; simpl; [reflexivity|].
  destruct (p y); [discriminate|auto].
Qed.
End Find.

Lemma fold_max_ge (ids : list Z) (z : Z) :
  In z ids -> z <= fold_right Z.max 0 ids.
Proof.
  induction ids as [|y ids IH]; simpl; [tauto|].
  intros [->|H]; [lia|]. specialize (IH H). lia.
Qed.

Lemma fresh_id_gt (ids : list Z) (z : Z) : In z ids -> z < fresh_id ids.
Proof. intros H. apply fold_max_ge in H. unfold fresh_id. lia. Qed.

Lemma fresh_id_pos (ids : list Z) : 0 < fresh_id ids.
Proof.
  unfold fresh_id.
  assert (0 <= fold_right Z.max 0 ids) by (induction ids; simpl; lia).
  lia.
Qed.

(** The key written into the scan URL is read back as the same key. *)
Lemma pk_of_string_str (z : Z) : pk_of_string (str z) = Some z.
Proof.
  unfold pk_of_string, str.
  rewrite NilZero.isi.
  - simpl. now rewrite DecimalZ.of_to.
  - destruct z; simpl; try discriminate.
    intros [= H]. now apply (DecimalPos.Unsigned.to_uint_nonnil p).
  - destruct z; simpl; try discriminate.
    intros [= H]. now apply (DecimalPos.Unsigned.to_uint_nonnil p).
Qed.

Lemma pk_of_string_empty : pk_of_string "" = None.
Proof. reflexivity. Qed.

Lemma truthy_Some (s : string) : s <> "" -> truthy (Some s) = true.
Proof. destruct s; [congruence|reflexivity]. Qed.

(** ** Issuance *)

Lemma deactivate_for_ids (cid : Z) (l : list QRSession.t) :
  map QRSession.id (map (QRSession_deactivate_for cid) l) = map QRSession.id l.
Proof.
  rewrite map_map. apply map_ext. intros q. unfold QRSession_deactivate_for.
  now destruct (_ && _).
Qed.

Lemma deactivate_for_same (cid : Z) (q : QRSession.t) :
  QRSession.class_session_id q = cid ->
  QRSession_deactivate_for cid q = QRSession.deactivate q.
Proof.
  intros <-. unfold QRSession_deactivate_for. rewrite Z.eqb_refl. simpl.
  destruct q as [i c t ca ea []]; reflexivity.
Qed.

Lemma deactivate_for_other (cid : Z) (q : QRSession.t) :
  QRSession.class_session_id q <> cid ->
  QRSession_deactivate_for cid q = q.
Proof.
  intros H. unfold QRSession_deactivate_for.
  apply Z.eqb_neq in H. now rewrite H.
Qed.

Lemma filter_active_deactivated (cid : Z) (l : list QRSession.t) :
  filter (active_for cid) (map (QRSession_deactivate_for cid) l) = [].
Proof.
  induction l as [|q l IH]; simpl; [reflexivity|].
  assert (active_for cid (QRSession_deactivate_for cid q) = false) as ->; [|exact IH].
  unfold active_for, QRSession_deactivate_for.
  destruct (QRSession.class_session_id q =? cid) eqn:E; simpl.
  - destruct (QRSession.active q) eqn:Ea; simpl; rewrite ?E, ?Ea; reflexivity.
  - now rewrite E.
Qed.

Lemma filter_active_other (cid c : Z) (l : list QRSession.t) :
  c <> cid ->
  filter (active_for c) (map (QRSession_deactivate_for cid) l)
  = filter (active_for c) l.
Proof.
  intros Hc. induction l as [|q l IH]; simpl; [reflexivity|].
  destruct (Z.eq_dec (QRSession.class_session_id q) cid) as [E|E].
  - rewrite (deactivate_for_same _ _ E).
    assert (Hne : (cid =? c) = false) by (apply Z.eqb_neq; congruence).
    assert (active_for c (QRSession.deactivate q) = false) as ->
      by (unfold active_for; simpl; now rewrite andb_false_r).
    assert (active_for c q = false) as ->
      by (unfold active_for; now rewrite E, Hne).
    exact IH.
  - rewrite (deactivate_for_other _ _ E). now rewrite IH.
Qed.

Lemma active_for_new (c i cid : Z) (t : string) (a e : datetime) :
  active_for c (QRSession.mk i cid t a e true) = (cid =? c).
Proof. unfold active_for. simpl. apply andb_true_r. Qed.

(** What a request that is answered with the QR page has done. *)
Lemma admin_generate_qr_inv st role now tok cid sid tok' exp cs st' :
  admin_generate_qr st role now tok cid = (Render_admin_qr sid tok' exp cs, st') ->
  let updated := map (QRSession_deactivate_for cid) (qr_sessions st) in
  let qs := QRSession.mk (fresh_id (map QRSession.id (qr_sessions st)))
                         cid tok now (now + timedelta_seconds 30) true in
  ClassSession_get st cid = Some cs /\ sid = str (QRSession.id qs) /\ tok' = tok
  /\ exp = now + timedelta_seconds 30
  /\ st' = set_qr_sessions st (updated ++ [qs]).
Proof.
  unfold admin_generate_qr.
  destruct (negb (login_required role "admin")); [discriminate|].
  destruct (ClassSession_get st cid) as [c|]; [|discriminate].
  rewrite deactivate_for_ids. intros [= <- <- <- <- <-]. simpl. auto.
Qed.

(** An administrator's request for a stored class session is answered with
    the QR page. *)
Lemma issue_succeeds st now tok cid cs :
  ClassSession_get st cid = Some cs ->
  exists st',
    issue st now tok cid
    = (Render_admin_qr (str (fresh_id (map QRSession.id (qr_sessions st))))
                       tok (now + timedelta_seconds 30) cs, st').
Proof.
  intros Hcs. unfold issue, admin_generate_qr. cbn [login_required].
  rewrite String.eqb_refl. cbn [negb]. rewrite Hcs, deactivate_for_ids.
  eexists. reflexivity.
Qed.

(** C2.  When [admin_generate_qr] answers with the QR page for class session
    [cid], the tokens of [cid] that are active afterwards are exactly one,
    the token just created (a new row, returned in the page), and every
    token of [cid] stored before is stored afterwards with [active = false];
    any other token of [cid] in the table afterwards is inactive. *)
Theorem issue_exactly_one_active st role now tok cid sid tok' exp cs st' :
  admin_generate_qr st role now tok cid = (Render_admin_qr sid tok' exp cs, st') ->
  exists qs,
    filter (active_for cid) (qr_sessions st') = [qs]
    /\ QRSession.class_session_id qs = cid
    /\ QRSession.active qs = true
    /\ QRSession.token qs = tok' /\ str (QRSession.id qs) = sid
    /\ QRSession.expires_at qs = exp
    /\ ~ In (QRSession.id qs) (map QRSession.id (qr_sessions st))
    /\ (forall i q, nth_error (qr_sessions st) i = Some q ->
                    QRSession.class_session_id q = cid ->
                    nth_error (qr_sessions st') i = Some (QRSession.deactivate q))
    /\ (forall q', In q' (qr_sessions st') ->
                   QRSession.class_session_id q' = cid ->
                   q' <> qs -> QRSession.active q' = false).
Proof.
  intros H. apply admin_generate_qr_inv in H.
  destruct H as (Hcs & -> & -> & -> & ->). simpl.
  exists (QRSession.mk (fresh_id (map QRSession.id (qr_sessions st)))
                       cid tok now (now + timedelta_seconds 30) true).
  split; [|repeat split].
  - rewrite filter_app, filter_active_deactivated. simpl.
    unfold active_for. simpl. now rewrite Z.eqb_refl.
  - simpl. intros Hin. apply fresh_id_gt in Hin. lia.
  - intros i q Hq Hc.
    rewrite nth_error_app1
      by (rewrite length_map; apply nth_error_Some; congruence).
    rewrite nth_error_map, Hq. simpl. now rewrite deactivate_for_same.
  - intros q' Hin Hc Hne. apply in_app_or in Hin. destruct Hin as [Hin|[<-|[]]].
    + apply in_map_iff in Hin. destruct Hin as (q & <- & _).
      unfold QRSession_deactivate_for in *.
      destruct (QRSession.class_session_id q =? cid) eqn:E; simpl in *.
      * destruct (QRSession.active q) eqn:Ea; simpl; auto.
      * apply Z.eqb_neq in E. congruence.
    + exfalso. apply Hne. reflexivity.
Qed.

(** The invariant of the data model is kept by every request for a code. *)
Lemma admin_generate_qr_at_most_one_active st role now tok cid :
  at_most_one_active st ->
  at_most_one_active (snd (admin_generate_qr st role now tok cid)).
Proof.
  intros Hinv. unfold admin_generate_qr.
  destruct (negb (login_required role "admin")); [exact Hinv|].
  destruct (ClassSession_get st cid) as [cs|]; [|exact Hinv].
  intros c. cbn [snd set_qr_sessions qr_sessions]. rewrite filter_app.
  cbn [filter]. rewrite active_for_new.
  destruct (Z.eq_dec c cid) as [->|Hc].
  - rewrite filter_active_deactivated, Z.eqb_refl. simpl. lia.
  - rewrite filter_active_other by exact Hc.
    assert ((cid =? c) = false) as -> by (apply Z.eqb_neq; congruence).
    rewrite app_nil_r. apply Hinv.
Qed.

(** C10.  A request for a code for class session [cid] leaves every token of
    another class session as it was, at its place in the table, and leaves
    the students, class sessions, attendance records, teachers and
    administrators untouched. *)
Theorem issue_frame st role now tok cid :
  let st' := snd (admin_generate_qr st role now tok cid) in
  students st' = students st
  /\ class_sessions st' = class_sessions st
  /\ attendance st' = attendance st
  /\ teachers st' = teachers st
  /\ admins st' = admins st
  /\ (forall i q, nth_error (qr_sessions st) i = Some q ->
                  QRSession.class_session_id q <> cid ->
                  nth_error (qr_sessions st') i = Some q).
Proof.
  unfold admin_generate_qr.
  destruct (negb (login_required role "admin")); [simpl; tauto|].
  destruct (ClassSession_get st cid) as [cs|]; [|simpl; tauto].
  simpl. repeat split.
  intros i q Hq Hc.
  rewrite nth_error_app1
    by (rewrite length_map; apply nth_error_Some; congruence).
  rewrite nth_error_map, Hq. simpl. now rewrite deactivate_for_other.
Qed.

(** ** Validation *)

Lemma gtb_false_le (a b : Z) : (a >? b) = false <-> a <= b.
Proof. rewrite Z.gtb_ltb, Z.ltb_ge. reflexivity. Qed.

Lemma gtb_true_gt (a b : Z) : (a >? b) = true <-> b < a.
Proof. rewrite Z.gtb_ltb, Z.ltb_lt. reflexivity. Qed.

(** Rewrites the tests of [student_scan] that an accepted token passes. *)
Ltac pass_validation H :=
  unfold check_in, validate, student_scan;
  cbn [method url args_sid args_token form_roll];
  rewrite (acc_sid _ _ _ _ _ H), (acc_token _ _ _ _ _ H), (acc_get _ _ _ _ _ H),
          (acc_secret _ _ _ _ _ H), (acc_active _ _ _ _ _ H), String.eqb_refl;
  rewrite (proj2 (gtb_false_le _ _) (acc_time _ _ _ _ _ H));
  cbn [negb orb].

Lemma validate_accepted st now tid sec qs :
  accepted st now tid sec qs ->
  validate st now tid sec
  = (Render_student_scan (ClassSession_get st (QRSession.class_session_id qs)) qs, st).
Proof. intros H. pass_validation H. reflexivity. Qed.

Lemma student_scan_form_inv st now nd req ocs qs st' :
  student_scan st now nd req = (Render_student_scan ocs qs, st') ->
  accepted st now (args_sid req) (args_token req) qs
  /\ ocs = ClassSession_get st (QRSession.class_session_id qs)
  /\ st' = st.
Proof.
  unfold student_scan.
  destruct (truthy (args_sid req)) eqn:Hsid; [|discriminate].
  destruct (truthy (args_token req)) eqn:Htok; [|discriminate].
  cbn [negb orb].
  destruct (QRSession_get st (text (args_sid req))) as [q|] eqn:Hget; [|discriminate].
  destruct (String.eqb (QRSession.token q) (text (args_token req))) eqn:Heq;
    [|discriminate].
  destruct (QRSession.active q) eqn:Hact; [|discriminate].
  cbn [negb orb].
  destruct (now >? QRSession.expires_at q) eqn:Hexp; [discriminate|].
  apply String.eqb_eq in Heq. apply gtb_false_le in Hexp.
  destruct (method req).
  - intros [= <- <- <-]. repeat split; auto.
  - intros [= <- <- <-]. repeat split; auto.
  - destruct (negb (truthy (form_roll req))); [discriminate|].
    destruct (ClassSession_get st (QRSession.class_session_id q)); [|discriminate].
    destruct (Student_first _ _ _ _); [|discriminate].
    destruct (Attendance_first _ _ _); discriminate.
Qed.

Lemma validate_success_inv st now tid sec ocs qs st' :
  validate st now tid sec = (Render_student_scan ocs qs, st') ->
  accepted st now tid sec qs
  /\ ocs = ClassSession_get st (QRSession.class_session_id qs)
  /\ st' = st.
Proof. intros H. apply student_scan_form_inv in H. exact H. Qed.

Lemma QRSession_get_nonempty st sid qs : QRSession_get st sid = Some qs -> sid <> "".
Proof. intros H ->. discriminate. Qed.


Lemma str_nonempty (z : Z) : str z <> "".
Proof.
  intros H. pose proof (pk_of_string_str z) as Hz. rewrite H in Hz. discriminate.
Qed.

Lemma validate_expired st now tid sec qs :
  truthy tid = true -> truthy sec = true ->
  QRSession_get st (text tid) = Some qs ->
  QRSession.token qs = text sec ->
  QRSession.active qs = true ->
  QRSession.expires_at qs < now ->
  validate st now tid sec = (qr_expired, st).
Proof.
  intros Htid Hsec Hget Htok Hact Hexp.
  unfold validate, student_scan.
  cbn [method url args_sid args_token form_roll].
  rewrite Htid, Hsec, Hget, Htok, Hact, String.eqb_refl.
  rewrite (proj2 (gtb_true_gt _ _) Hexp). reflexivity.
Qed.

(** C5 (as the code has it).  For a secret that is present, [validate] has
    two error results.  One is shared, "Invalid or inactive QR session":
    it answers a token id that is a key, written as the scan URL writes it,
    under which no token is stored, and it answers a token id that resolves
    to a stored token whose secret differs from the supplied one or that is
    not active.  The other, "QR expired", answers a token id that resolves
    to a stored token that matches, is active and has [now > expires_at]. *)
Theorem validate_error_kinds st now secret :
  secret <> "" ->
  (forall key,
      find (fun q => QRSession.id q =? key) (qr_sessions st) = None ->
      validate st now (Some (str key)) (Some secret) = (invalid_or_inactive, st))
  /\ (forall token_id qs,
        QRSession_get st token_id = Some qs ->
        (QRSession.token qs <> secret \/ QRSession.active qs = false ->
         validate st now (Some token_id) (Some secret) = (invalid_or_inactive, st))
        /\ (QRSession.token qs = secret ->
            QRSession.active qs = true ->
            QRSession.expires_at qs < now ->
            validate st now (Some token_id) (Some secret) = (qr_expired, st)))
  /\ invalid_or_inactive <> qr_expired.
Proof.
  intros Hsec. split; [|split; [|discriminate]].
  - intros key Hnone. unfold validate, student_scan, QRSession_get.
    cbn [method url args_sid args_token form_roll text].
    rewrite (truthy_Some _ (str_nonempty key)), (truthy_Some _ Hsec).
    cbn [negb orb]. rewrite pk_of_string_str, Hnone. reflexivity.
  - intros token_id qs Hget.
    pose proof (QRSession_get_nonempty _ _ _ Hget) as Hsid. split.
    + intros Hbad. unfold validate, student_scan.
      cbn [method url args_sid args_token form_roll text].
      rewrite (truthy_Some _ Hsid), (truthy_Some _ Hsec). cbn [negb orb].
      rewrite Hget.
      destruct Hbad as [Hne|Hact].
      * apply String.eqb_neq in Hne. now rewrite Hne.
      * rewrite Hact. cbn [negb]. now rewrite orb_true_r.
    + intros Htok Hact Hexp.
      apply (validate_expired st now (Some token_id) (Some secret) qs);
        auto using truthy_Some.
Qed.

(** C8.  [validate] returns the database it was given, whatever the token
    reference; called any number of times in a row it gives the same answer
    each time and the database is still the one it started from. *)
Theorem validate_read_only st now token_id secret :
  snd (validate st now token_id secret) = st
  /\ forall n, validate_repeatedly n st now token_id secret
               = (repeat (fst (validate st now token_id secret)) n, st).
Proof.
  assert (Hsnd : snd (validate st now token_id secret) = st).
  { unfold validate, student_scan.
    cbn [method url args_sid args_token form_roll].
    destruct (_ || _); [reflexivity|].
    destruct (QRSession_get _ _) as [qs|]; [|reflexivity].
    destruct (_ || _); [reflexivity|].
    destruct (_ >? _); reflexivity. }
  split; [exact Hsnd|].
  induction n as [|n IH]; [reflexivity|].
  cbn [validate_repeatedly repeat].
  destruct (validate st now token_id secret) as [r st1] eqn:Hv.
  simpl in Hsnd. subst st1. rewrite IH. reflexivity.
Qed.

(** A request that is not a form submission leaves the database alone. *)
Lemma student_scan_get_read_only st now nd req :
  method req <> POST -> snd (student_scan st now nd req) = st.
Proof.
  intros Hm. unfold student_scan.
  destruct (_ || _); [reflexivity|].
  destruct (QRSession_get _ _) as [qs|]; [|reflexivity].
  destruct (_ || _); [reflexivity|].
  destruct (_ >? _); [reflexivity|].
  destruct (method req); [reflexivity|reflexivity|congruence].
Qed.

(** ** Check-in *)

(** What a request that is answered with the success page has done. *)
Lemma student_scan_success_inv st now nd req s cs qs st' :
  student_scan st now nd req = (Render_student_success s cs qs, st') ->
  accepted st now (args_sid req) (args_token req) qs
  /\ method req = POST
  /\ truthy (form_roll req) = true
  /\ ClassSession_get st (QRSession.class_session_id qs) = Some cs
  /\ Student_first st (text (form_roll req)) (ClassSession.batch cs)
                   (ClassSession.course cs) = Some s
  /\ Attendance_first st (Student.id s) (ClassSession.id cs) = None
  /\ st' = set_attendance st
             (attendance st
              ++ [Attendance.mk (fresh_id (map Attendance.id (attendance st)))
                                (Student.id s) (ClassSession.id cs)
                                nd "Present"]).
Proof.
  unfold student_scan.
  destruct (truthy (args_sid req)) eqn:Hsid; [|discriminate].
  destruct (truthy (args_token req)) eqn:Htok; [|discriminate].
  cbn [negb orb].
  destruct (QRSession_get st (text (args_sid req))) as [q|] eqn:Hget; [|discriminate].
  destruct (String.eqb (QRSession.token q) (text (args_token req))) eqn:Heq;
    [|discriminate].
  destruct (QRSession.active q) eqn:Hact; [|discriminate].
  cbn [negb orb].
  destruct (now >? QRSession.expires_at q) eqn:Hexp; [discriminate|].
  apply String.eqb_eq in Heq. apply gtb_false_le in Hexp.
  destruct (method req); [discriminate|discriminate|].
  destruct (truthy (form_roll req)) eqn:Hroll; [|discriminate].
  cbn [negb].
  destruct (ClassSession_get st (QRSession.class_session_id q)) as [c|] eqn:Hc;
    [|discriminate].
  destruct (Student_first _ _ _ _) as [s0|] eqn:Hs; [|discriminate].
  destruct (Attendance_first _ _ _) eqn:Ha; [discriminate|].
  intros [= <- <- <- <-]. repeat split; auto.
Qed.

(** C9.  Whenever [student_scan], and so [check_in], answers with anything
    but the success page (missing parameters, unknown token, wrong secret,
    inactive or expired token, missing, unknown or ineligible roll number, a
    repeated scan), the database it returns is the one it was given. *)
Theorem check_in_atomic_on_error st now nd req resp st' :
  student_scan st now nd req = (resp, st') ->
  (forall s cs qs, resp <> Render_student_success s cs qs) ->
  st' = st /\ attendance st' = attendance st.
Proof.
  intros H Hfail.
  enough (st' = st) by (subst; auto).
  revert H. unfold student_scan.
  destruct (_ || _); [now intros [= _ <-]|].
  destruct (QRSession_get _ _) as [qs|]; [|now intros [= _ <-]].
  destruct (_ || _); [now intros [= _ <-]|].
  destruct (_ >? _); [now intros [= _ <-]|].
  destruct (method req); [now intros [= _ <-]|now intros [= _ <-]|].
  destruct (negb _); [now intros [= _ <-]|].
  destruct (ClassSession_get _ _) as [cs|]; [|now intros [= _ <-]].
  destruct (Student_first _ _ _ _) as [s|]; [|now intros [= _ <-]].
  destruct (Attendance_first _ _ _); [now intros [= _ <-]|].
  intros [= <- _]. exfalso. eapply Hfail. reflexivity.
Qed.

Lemma Student_first_none st roll batch course :
  (forall s, In s (students st) -> Student.roll_number s = roll ->
             Student.batch s <> batch \/ Student.course s <> course) ->
  Student_first st roll batch course = None.
Proof.
  intros H. apply forall_false_find_none. intros s Hin.
  unfold Student_filter_by.
  destruct (String.eqb_spec (Student.roll_number s) roll) as [Hr|]; [|reflexivity].
  destruct (String.eqb_spec (Student.batch s) batch) as [Hb|]; [|reflexivity].
  destruct (String.eqb_spec (Student.course s) course) as [Hc|]; [|reflexivity].
  destruct (H s Hin Hr); contradiction.
Qed.

(** C4 (as the code has it).  With a token that validates for class session
    [cs] and a roll number that is present, [check_in] gives one and the same
    answer, the message "Invalid roll number for this session" flashed with a
    redirect to the scan URL, when no student has the roll number and when
    the students that have it are of another batch or course than [cs]; the
    database is unchanged. *)
Theorem check_in_rejects_unknown_or_ineligible st now nd token_id secret roll cs qs :
  validate st now token_id secret = (Render_student_scan (Some cs) qs, st) ->
  roll <> "" ->
  (forall s, In s (students st) -> Student.roll_number s = roll ->
             Student.batch s <> ClassSession.batch cs
             \/ Student.course s <> ClassSession.course cs) ->
  check_in st now nd token_id secret (Some roll) = (invalid_roll, st).
Proof.
  intros Hv Hroll Hnone.
  apply validate_success_inv in Hv. destruct Hv as (Hacc & Hcs & _).
  pass_validation Hacc.
  rewrite (truthy_Some _ Hroll). cbn [negb text].
  rewrite <- Hcs, (Student_first_none _ _ _ _ Hnone). reflexivity.
Qed.

Lemma Attendance_filter_by_new i sid cid ts stt :
  Attendance_filter_by sid cid (Attendance.mk i sid cid ts stt) = true.
Proof. unfold Attendance_filter_by. simpl. now rewrite !Z.eqb_refl. Qed.

(** C7 (as the code has it).  With a token that validates for class session [cs], a roll number
    that the student query resolves to [s], and no attendance row for
    ([s], [cs]), [check_in] answers with the success page of [s] and [cs] and
    appends one attendance row to the table: for [s] and [cs], with a new
    key, with the clock reading of the column default as [timestamp] and
    with [status] "Present".  What is returned is the page, not the row: the
    student and the class session of the page are the keys under which the
    new table holds that row. *)
Theorem check_in_records_present st now nd token_id secret roll cs qs s :
  validate st now token_id secret = (Render_student_scan (Some cs) qs, st) ->
  roll <> "" ->
  Student_first st roll (ClassSession.batch cs) (ClassSession.course cs) = Some s ->
  Attendance_first st (Student.id s) (ClassSession.id cs) = None ->
  exists a,
    check_in st now nd token_id secret (Some roll)
    = (Render_student_success s cs qs, set_attendance st (attendance st ++ [a]))
    /\ Attendance.timestamp a = nd
    /\ Attendance.status a = "Present"
    /\ Attendance.student_id a = Student.id s
    /\ Attendance.class_session_id a = ClassSession.id cs
    /\ ~ In (Attendance.id a) (map Attendance.id (attendance st))
    /\ Attendance_first (set_attendance st (attendance st ++ [a]))
                        (Student.id s) (ClassSession.id cs) = Some a.
Proof.
  intros Hv Hroll Hs Ha.
  apply validate_success_inv in Hv. destruct Hv as (Hacc & Hcs & _).
  exists (Attendance.mk (fresh_id (map Attendance.id (attendance st)))
                        (Student.id s) (ClassSession.id cs) nd "Present").
  split; [|repeat split].
  - pass_validation Hacc.
    rewrite (truthy_Some _ Hroll). cbn [negb text].
    rewrite <- Hcs, Hs, Ha. reflexivity.
  - simpl. intros Hin. apply fresh_id_gt in Hin. lia.
  - unfold Attendance_first in *. cbn [attendance set_attendance].
    rewrite find_app_r by exact Ha. cbn [find].
    now rewrite Attendance_filter_by_new.
Qed.

(** A scan by a student whose row for the class session is stored. *)
Lemma check_in_already_marked st now nd token_id secret roll cs qs s a :
  validate st now token_id secret = (Render_student_scan (Some cs) qs, st) ->
  truthy roll = true ->
  Student_first st (text roll) (ClassSession.batch cs) (ClassSession.course cs)
  = Some s ->
  Attendance_first st (Student.id s) (ClassSession.id cs) = Some a ->
  check_in st now nd token_id secret roll = (already_marked, st).
Proof.
  intros Hv Hroll Hs Ha.
  apply validate_success_inv in Hv. destruct Hv as (Hacc & Hcs & _).
  pass_validation Hacc. rewrite Hroll. cbn [negb].
  rewrite <- Hcs, Hs, Ha. reflexivity.
Qed.

Lemma check_in_all_already_marked st roll cs s a :
  truthy roll = true ->
  Student_first st (text roll) (ClassSession.batch cs) (ClassSession.course cs)
  = Some s ->
  Attendance_first st (Student.id s) (ClassSession.id cs) = Some a ->
  forall calls,
    Forall (fun c => exists qs,
              validate st (call_now c) (call_token_id c) (call_secret c)
              = (Render_student_scan (Some cs) qs, st)) calls ->
    check_in_all st roll calls = (repeat already_marked (List.length calls), st).
Proof.
  intros Hroll Hs Ha. induction calls as [|c calls IH]; intros Hall.
  - reflexivity.
  - inversion Hall as [|c' calls' [qs Hv] Hrest]; subst.
    cbn [check_in_all List.length repeat].
    rewrite (check_in_already_marked _ _ _ _ _ _ _ _ _ _ Hv Hroll Hs Ha).
    rewrite (IH Hrest). reflexivity.
Qed.

(** C1 (as the code has it).  When a check-in of a roll number succeeds for
    student [s] and class session [cs], there was no attendance row for the
    pair before and there is exactly one after it, the row [a] just appended;
    and every later check-in with the same roll number through a token that
    validates for [cs], any number of them in a row, is answered with the
    fixed text "Attendance already marked for this session", which names no
    record, and leaves the database as the first call left it; the row that
    its duplicate test finds there is that same row [a]. *)
Theorem check_in_at_most_once st now nd token_id secret roll s cs qs st1 :
  check_in st now nd token_id secret roll = (Render_student_success s cs qs, st1) ->
  exists a,
    attendance st1 = attendance st ++ [a]
    /\ filter (Attendance_filter_by (Student.id s) (ClassSession.id cs))
              (attendance st) = []
    /\ filter (Attendance_filter_by (Student.id s) (ClassSession.id cs))
              (attendance st1) = [a]
    /\ Attendance_first st1 (Student.id s) (ClassSession.id cs) = Some a
    /\ forall calls,
         Forall (fun c => exists qs',
                   validate st1 (call_now c) (call_token_id c) (call_secret c)
                   = (Render_student_scan (Some cs) qs', st1)) calls ->
         check_in_all st1 roll calls
         = (repeat already_marked (List.length calls), st1).
Proof.
  intros H. apply student_scan_success_inv in H.
  cbn [method args_sid args_token form_roll] in H.
  destruct H as (_ & _ & Hroll & _ & Hs & Ha & ->).
  set (a := Attendance.mk _ _ _ _ _).
  assert (Hfirst : Attendance_first (set_attendance st (attendance st ++ [a]))
                     (Student.id s) (ClassSession.id cs) = Some a).
  { unfold Attendance_first in *. cbn [attendance set_attendance].
    rewrite find_app_r by exact Ha. subst a. cbn [find].
    now rewrite Attendance_filter_by_new. }
  exists a. repeat split.
  - apply filter_none. exact Ha.
  - cbn [attendance set_attendance]. rewrite filter_app.
    rewrite (filter_none _ _ Ha). subst a. cbn [filter app].
    now rewrite Attendance_filter_by_new.
  - exact Hfirst.
  - intros calls Hcalls.
    apply (check_in_all_already_marked _ roll cs s a Hroll); auto.
Qed.

(** ** The validity window *)

Lemma QRSession_get_new st cid qs :
  QRSession.id qs = fresh_id (map QRSession.id (qr_sessions st)) ->
  QRSession_get
    (set_qr_sessions st (map (QRSession_deactivate_for cid) (qr_sessions st) ++ [qs]))
    (str (QRSession.id qs)) = Some qs.
Proof.
  intros Hid. unfold QRSession_get. rewrite pk_of_string_str.
  cbn [qr_sessions set_qr_sessions].
  rewrite find_app_r.
  - cbn [find]. now rewrite Z.eqb_refl.
  - apply forall_false_find_none. intros q Hq. apply Z.eqb_neq.
    assert (Hin : In (QRSession.id q) (map QRSession.id (qr_sessions st))).
    { rewrite <- (deactivate_for_ids cid). now apply in_map. }
    apply fresh_id_gt in Hin. lia.
Qed.

(** C6.  The token that a request at [T0] creates has
    [expires_at = T0 + 30 s].  Presented with the key and the secret of the
    QR page, it validates at every instant up to [T0 + 30 s], so at
    [T0 + 29 s], and is answered "QR expired" at every later instant, so at
    [T0 + 31 s]. *)
Theorem token_valid_for_30_seconds st role T0 tok cid sid tok' exp cs st' :
  tok <> "" ->
  admin_generate_qr st role T0 tok cid = (Render_admin_qr sid tok' exp cs, st') ->
  exp = T0 + timedelta_seconds 30
  /\ exists qs,
       In qs (qr_sessions st')
       /\ QRSession.created_at qs = T0
       /\ QRSession.expires_at qs = T0 + timedelta_seconds 30
       /\ QRSession.active qs = true
       /\ (forall t, t <= T0 + timedelta_seconds 30 ->
             validate st' t (Some sid) (Some tok')
             = (Render_student_scan (Some cs) qs, st'))
       /\ (forall t, T0 + timedelta_seconds 30 < t ->
             validate st' t (Some sid) (Some tok') = (qr_expired, st'))
       /\ validate st' (T0 + timedelta_seconds 29) (Some sid) (Some tok')
          = (Render_student_scan (Some cs) qs, st')
       /\ validate st' (T0 + timedelta_seconds 31) (Some sid) (Some tok')
          = (qr_expired, st').
Proof.
  intros Htok H. apply admin_generate_qr_inv in H.
  destruct H as (Hcs & -> & -> & -> & ->). cbn zeta.
  split; [reflexivity|].
  set (qs := QRSession.mk _ _ _ _ _ _).
  set (st' := set_qr_sessions st _).
  assert (Hget : QRSession_get st' (str (QRSession.id qs)) = Some qs)
    by (apply QRSession_get_new; reflexivity).
  assert (Hok : forall t, t <= T0 + timedelta_seconds 30 ->
            validate st' t (Some (str (QRSession.id qs))) (Some tok)
            = (Render_student_scan (Some cs) qs, st')).
  { intros t Ht. rewrite (validate_accepted st' t _ _ qs).
    - unfold ClassSession_get in *. cbn [class_sessions st' set_qr_sessions].
      cbn [QRSession.class_session_id qs]. now rewrite Hcs.
    - constructor; auto using truthy_Some, str_nonempty. }
  assert (Hko : forall t, T0 + timedelta_seconds 30 < t ->
            validate st' t (Some (str (QRSession.id qs))) (Some tok)
            = (qr_expired, st')).
  { intros t Ht. apply (validate_expired st' t _ _ qs);
      auto using truthy_Some, str_nonempty. }
  exists qs. repeat split; auto.
  - unfold st'. cbn [qr_sessions set_qr_sessions]. apply in_or_app. right. now left.
  - apply Hok. unfold timedelta_seconds. lia.
  - apply Hko. unfold timedelta_seconds. lia.
Qed.

(** ** Well-formed stores *)

Lemma wf_store_empty : wf_store empty_db.
Proof. intros q []. Qed.

(** Issuance with a non-empty secret (what [secrets.token_urlsafe(16)]
    returns) keeps the store well formed. *)
Lemma admin_generate_qr_wf st role now tok cid :
  tok <> "" -> wf_store st ->
  wf_store (snd (admin_generate_qr st role now tok cid)).
Proof.
  intros Htok Hwf. unfold admin_generate_qr.
  destruct (negb (login_required role "admin")); [exact Hwf|].
  destruct (ClassSession_get st cid) as [cs|] eqn:Hcs; [|exact Hwf].
  intros q Hq. cbn [snd qr_sessions set_qr_sessions] in Hq.
  unfold ClassSession_get in *. cbn [snd class_sessions set_qr_sessions].
  apply in_app_or in Hq. destruct Hq as [Hq|[<-|[]]].
  - apply in_map_iff in Hq. destruct Hq as (q0 & <- & Hq0).
    specialize (Hwf q0 Hq0). unfold QRSession_deactivate_for.
    destruct (_ && _); exact Hwf.
  - cbn [QRSession.token QRSession.class_session_id]. split; [exact Htok|].
    rewrite Hcs. discriminate.
Qed.

Lemma student_scan_tables st now nd req :
  let st' := snd (student_scan st now nd req) in
  qr_sessions st' = qr_sessions st
  /\ class_sessions st' = class_sessions st
  /\ students st' = students st.
Proof.
  unfold student_scan.
  repeat match goal with
         | |- context [if ?b then _ else _] => destruct b
         | |- context [match ?x with _ => _ end] => destruct x
         end; simpl; auto.
Qed.

Lemma student_scan_wf st now nd req :
  wf_store st -> wf_store (snd (student_scan st now nd req)).
Proof.
  intros Hwf q. destruct (student_scan_tables st now nd req) as (Hq & Hc & _).
  unfold ClassSession_get. rewrite Hq, Hc. apply Hwf.
Qed.

Lemma student_scan_at_most_one_active st now nd req :
  at_most_one_active st -> at_most_one_active (snd (student_scan st now nd req)).
Proof.
  intros Hinv cid. destruct (student_scan_tables st now nd req) as (Hq & _).
  rewrite Hq. apply Hinv.
Qed.

Lemma wf_store_stored st sid qs :
  wf_store st -> QRSession_get st sid = Some qs ->
  QRSession.token qs <> ""
  /\ exists cs, ClassSession_get st (QRSession.class_session_id qs) = Some cs.
Proof.
  intros Hwf Hget. unfold QRSession_get in Hget.
  destruct (pk_of_string sid); [|discriminate].
  apply find_some in Hget. destruct (Hwf qs (proj1 Hget)) as [Ht Hc].
  split; [exact Ht|].
  destruct (ClassSession_get st (QRSession.class_session_id qs)) as [cs|];
    [eauto|contradiction].
Qed.

(** ** The properties on the small database *)

Import Example.

Lemma wf_store_st0 : wf_store st0.
Proof.
  intros q [<-|[<-|[<-|[]]]]; (split; [discriminate|vm_compute; discriminate]).
Qed.

Lemma check_in_at_most_once_witness :
  check_in st0 6000000 6000001 (Some "2") (Some "tokB") (Some "R001")
  = (Render_student_success stu1 cs1 qr2, st1)
  /\ filter (Attendance_filter_by 1 1) (attendance st1) = [a1]
  /\ check_in_all st1 (Some "R001") later = ([already_marked; already_marked], st1).
Proof.
  assert (H : check_in st0 6000000 6000001 (Some "2") (Some "tokB") (Some "R001")
              = (Render_student_success stu1 cs1 qr2, st1)) by reflexivity.
  split; [exact H|].
  destruct (check_in_at_most_once _ _ _ _ _ _ _ _ _ _ H)
    as (a & Ha & _ & Hone & _ & Hlater).
  assert (a = a1) as -> by (simpl in Ha; now injection Ha as <-).
  split; [exact Hone|].
  apply (Hlater later).
  repeat constructor; exists qr2; reflexivity.
Defined.

Lemma issue_exactly_one_active_witness :
  admin_generate_qr st0 (Some "admin") 40000000 "tokD" 1
  = (Render_admin_qr "4" "tokD" 70000000 cs1, st4)
  /\ exists qs,
       filter (active_for 1) (qr_sessions st4) = [qs]
       /\ QRSession.class_session_id qs = 1
       /\ QRSession.active qs = true
       /\ QRSession.token qs = "tokD" /\ str (QRSession.id qs) = "4"
       /\ QRSession.expires_at qs = 70000000
       /\ ~ In (QRSession.id qs) (map QRSession.id (qr_sessions st0))
       /\ (forall i q, nth_error (qr_sessions st0) i = Some q ->
                       QRSession.class_session_id q = 1 ->
                       nth_error (qr_sessions st4) i = Some (QRSession.deactivate q))
       /\ (forall q', In q' (qr_sessions st4) ->
                      QRSession.class_session_id q' = 1 ->
                      q' <> qs -> QRSession.active q' = false).
Proof.
  split; [reflexivity|].
  apply (issue_exactly_one_active st0 (Some "admin") 40000000 "tokD" 1
           "4" "tokD" 70000000 cs1 st4).
  reflexivity.
Defined.


Lemma check_in_rejects_unknown_or_ineligible_witness :
  check_in st0 6000000 6000001 (Some "2") (Some "tokB") (Some "R002")
  = (invalid_roll, st0).
Proof.
  apply (check_in_rejects_unknown_or_ineligible st0 6000000 6000001
           (Some "2") (Some "tokB") "R002" cs1 qr2).
  - reflexivity.
  - discriminate.
  - intros s [<-|[<-|[]]]; simpl; intros H; [discriminate H|left; discriminate].
Defined.

Lemma validate_error_kinds_witness :
  validate st0 6000000 (Some (str 9)) (Some "tokA") = (invalid_or_inactive, st0)
  /\ validate st0 6000000 (Some "1") (Some "tokA") = (invalid_or_inactive, st0)
  /\ validate st0 6000000 (Some "2") (Some "tokA") = (invalid_or_inactive, st0)
  /\ validate st0 36000000 (Some "2") (Some "tokB") = (qr_expired, st0)
  /\ invalid_or_inactive <> qr_expired.
Proof.
  destruct (validate_error_kinds st0 6000000 "tokA") as (Hmissing & Hstored & Hne);
    [discriminate|].
  destruct (validate_error_kinds st0 36000000 "tokB") as (_ & Hlate & _);
    [discriminate|].
  split; [|split; [|split; [|split]]].
  - apply Hmissing. reflexivity.
  - apply (proj1 (Hstored "1" qr1 eq_refl)). right. reflexivity.
  - apply (proj1 (Hstored "2" qr2 eq_refl)). left. discriminate.
  - apply (proj2 (Hlate "2" qr2 eq_refl)); [reflexivity|reflexivity|].
    simpl. lia.
  - exact Hne.
Defined.

Lemma token_valid_for_30_seconds_witness :
  70000000 = 40000000 + timedelta_seconds 30
  /\ exists qs,
       In qs (qr_sessions st4)
       /\ QRSession.created_at qs = 40000000
       /\ QRSession.expires_at qs = 40000000 + timedelta_seconds 30
       /\ QRSession.active qs = true
       /\ (forall t, t <= 40000000 + timedelta_seconds 30 ->
             validate st4 t (Some "4") (Some "tokD")
             = (Render_student_scan (Some cs1) qs, st4))
       /\ (forall t, 40000000 + timedelta_seconds 30 < t ->
             validate st4 t (Some "4") (Some "tokD") = (qr_expired, st4))
       /\ validate st4 (40000000 + timedelta_seconds 29) (Some "4") (Some "tokD")
          = (Render_student_scan (Some cs1) qs, st4)
       /\ validate st4 (40000000 + timedelta_seconds 31) (Some "4") (Some "tokD")
          = (qr_expired, st4).
Proof.
  apply (token_valid_for_30_seconds st0 (Some "admin") 40000000 "tokD" 1
           "4" "tokD" 70000000 cs1 st4).
  - discriminate.
  - reflexivity.
Defined.

Lemma check_in_records_present_witness :
  exists a,
    check_in st0 6000000 6000001 (Some "2") (Some "tokB") (Some "R001")
    = (Render_student_success stu1 cs1 qr2, set_attendance st0 (attendance st0 ++ [a]))
    /\ Attendance.timestamp a = 6000001
    /\ Attendance.status a = "Present"
    /\ Attendance.student_id a = Student.id stu1
    /\ Attendance.class_session_id a = ClassSession.id cs1
    /\ ~ In (Attendance.id a) (map Attendance.id (attendance st0))
    /\ Attendance_first (set_attendance st0 (attendance st0 ++ [a]))
                        (Student.id stu1) (ClassSession.id cs1) = Some a.
Proof.
  apply (check_in_records_present st0 6000000 6000001 (Some "2") (Some "tokB")
           "R001" cs1 qr2 stu1).
  - reflexivity.
  - discriminate.
  - reflexivity.
  - reflexivity.
Defined.

Lemma check_in_atomic_on_error_witness :
  student_scan st0 36000000 36000001
    (mkreq POST "/scan" (Some "2") (Some "tokB") (Some "R001"))
  = (qr_expired, st0)
  /\ st0 = st0 /\ attendance st0 = attendance st0.
Proof.
  split; [reflexivity|].
  apply (check_in_atomic_on_error st0 36000000 36000001
           (mkreq POST "/scan" (Some "2") (Some "tokB") (Some "R001"))
           qr_expired st0).
  - reflexivity.
  - intros s cs qs. discriminate.
Defined.

(** C5, the claim as stated, fails: an unknown token id, a wrong secret and
    a superseded token are three different failure conditions of the
    specification, and [validate] answers all three with the same result, so
    no reading of the result tells them apart. *)
Lemma validate_errors_merged :
  spec_validation_error st0 6000000 "9" "tokB" = Some NotFound
  /\ spec_validation_error st0 6000000 "2" "nope" = Some SecretMismatch
  /\ spec_validation_error st0 6000000 "1" "tokA" = Some Inactive
  /\ validate st0 6000000 (Some "9") (Some "tokB") = (invalid_or_inactive, st0)
  /\ validate st0 6000000 (Some "2") (Some "nope") = (invalid_or_inactive, st0)
  /\ validate st0 6000000 (Some "1") (Some "tokA") = (invalid_or_inactive, st0)
  /\ ~ validate_errors_distinguishable.
Proof.
  repeat split; try reflexivity.
  intros [kind_of H].
  assert (H1 : kind_of invalid_or_inactive = Some NotFound).
  { apply (H st0 6000000 "9" "tokB" NotFound); [discriminate|discriminate|reflexivity]. }
  assert (H2 : kind_of invalid_or_inactive = Some SecretMismatch).
  { apply (H st0 6000000 "2" "nope" SecretMismatch);
      [discriminate|discriminate|reflexivity]. }
  rewrite H1 in H2. discriminate.
Qed.

(** C4, the claim as stated, fails: roll number "R999" belongs to no student
    and roll number "R002" belongs to a student of another batch than class
    session 1, and [check_in] answers both with the same result, so no
    reading of the result tells an unknown student from an ineligible one. *)
Lemma student_errors_merged :
  validate st0 6000000 (Some "2") (Some "tokB")
  = (Render_student_scan (Some cs1) qr2, st0)
  /\ spec_student_error st0 "R999" cs1 = Some UnknownStudent
  /\ spec_student_error st0 "R002" cs1 = Some NotEligible
  /\ check_in st0 6000000 6000001 (Some "2") (Some "tokB") (Some "R999")
     = (invalid_roll, st0)
  /\ check_in st0 6000000 6000001 (Some "2") (Some "tokB") (Some "R002")
     = (invalid_roll, st0)
  /\ ~ student_errors_distinguishable.
Proof.
  repeat split; try reflexivity.
  intros [kind_of H].
  assert (H1 : kind_of invalid_roll = Some UnknownStudent).
  { apply (H st0 6000000 6000001 (Some "2") (Some "tokB") "R999" cs1 qr2 UnknownStudent);
      [reflexivity|discriminate|reflexivity]. }
  assert (H2 : kind_of invalid_roll = Some NotEligible).
  { apply (H st0 6000000 6000001 (Some "2") (Some "tokB") "R002" cs1 qr2 NotEligible);
      [reflexivity|discriminate|reflexivity]. }
  rewrite H1 in H2. discriminate.
Qed.

(** C1, the claim as stated, fails: the answer to a repeated scan is one
    fixed text.  The same first scan stores row [a1] when the row is written
    at 6000001 and another row, [a1_later], when it is written at 6000005;
    the repeated scan gets the same answer on both databases, so no reading
    of the answer gives the stored record. *)
Lemma already_marked_names_no_record :
  check_in st0 6000000 6000001 (Some "2") (Some "tokB") (Some "R001")
  = (Render_student_success stu1 cs1 qr2, st1)
  /\ check_in st0 6000000 6000005 (Some "2") (Some "tokB") (Some "R001")
     = (Render_student_success stu1 cs1 qr2, st1_later)
  /\ Attendance_first st1 1 1 = Some a1
  /\ Attendance_first st1_later 1 1 = Some a1_later
  /\ a1 <> a1_later
  /\ check_in st1 7000000 7000002 (Some "2") (Some "tokB") (Some "R001")
     = (already_marked, st1)
  /\ check_in st1_later 7000000 7000002 (Some "2") (Some "tokB") (Some "R001")
     = (already_marked, st1_later)
  /\ ~ already_marked_references_record.
Proof.
  repeat split; try reflexivity; try discriminate.
  intros [record_of H].
  assert (H1 : record_of already_marked = Some a1).
  { apply (H st0 6000000 6000001 (Some "2") (Some "tokB") (Some "R001")
             stu1 cs1 qr2 st1 a1 7000000 7000002 (Some "2") (Some "tokB") qr2);
      reflexivity. }
  assert (H2 : record_of already_marked = Some a1_later).
  { apply (H st0 6000000 6000005 (Some "2") (Some "tokB") (Some "R001")
             stu1 cs1 qr2 st1_later a1_later 7000000 7000002
             (Some "2") (Some "tokB") qr2);
      reflexivity. }
  rewrite H1 in H2. discriminate.
Qed.

(** C7, the claim as stated, fails: the success page is made of the student,
    the class session and the token.  The same scan stores row [a1] when the
    row is written at 6000001 and row [a1_later] when it is written at
    6000005, and returns the same page both times, so no reading of what is
    returned gives the record created. *)
Lemma success_page_carries_no_record :
  check_in st0 6000000 6000001 (Some "2") (Some "tokB") (Some "R001")
  = (Render_student_success stu1 cs1 qr2, st1)
  /\ attendance st1 = attendance st0 ++ [a1]
  /\ check_in st0 6000000 6000005 (Some "2") (Some "tokB") (Some "R001")
     = (Render_student_success stu1 cs1 qr2, st1_later)
  /\ attendance st1_later = attendance st0 ++ [a1_later]
  /\ a1 <> a1_later
  /\ ~ success_returns_record.
Proof.
  repeat split; try reflexivity; try discriminate.
  intros [record_of H].
  assert (H1 : record_of (Render_student_success stu1 cs1 qr2) = Some a1).
  { apply (H st0 6000000 6000001 (Some "2") (Some "tokB") (Some "R001")
             stu1 cs1 qr2 st1 a1); reflexivity. }
  assert (H2 : record_of (Render_student_success stu1 cs1 qr2) = Some a1_later).
  { apply (H st0 6000000 6000005 (Some "2") (Some "tokB") (Some "R001")
             stu1 cs1 qr2 st1_later a1_later); reflexivity. }
  rewrite H1 in H2. discriminate.
Qed.

(** * Properties of the other handlers *)

(** ** More on lists and keys *)

Lemma fresh_id_not_in (ids : list Z) : ~ In (fresh_id ids) ids.
Proof. intros H. apply fresh_id_gt in H. lia. Qed.

Lemma NoDup_snoc {A : Type} (l : list A) (x : A) :
  NoDup l -> ~ In x l -> NoDup (l ++ [x]).
Proof.
  intros Hl Hx. induction Hl as [|y l Hy Hl IH]; simpl.
  - constructor; [tauto|constructor].
  - constructor.
    + rewrite in_app_iff. simpl. intros [H|[H|[]]]; [tauto|].
      apply Hx. now left.
    + apply IH. intros H. apply Hx. now right.
Qed.

(** Deleting rows keeps a column unique. *)
Section Kept.
Context {Row Col : Type}.
Variable column : Row -> Col.
Variable keep : Row -> bool.

Lemma kept_rows_unique (rows : list Row) :
  NoDup (map column rows) -> NoDup (map column (filter keep rows)).
Proof.
  induction rows as [|row rows IH]; intros Huniq.
  - constructor.
  - apply NoDup_cons_iff in Huniq. destruct Huniq as [Hrow Hrows].
    cbn [filter]. destruct (keep row); [|now apply IH].
    cbn [map]. apply NoDup_cons; [|now apply IH].
    intros Hin. apply Hrow. apply in_map_iff in Hin.
    destruct Hin as (other & Hcol & Hother). apply filter_In in Hother.
    rewrite <- Hcol. apply in_map. tauto.
Qed.
End Kept.

Lemma find_key_in {A : Type} (key : A -> Z) (l : list A) (k : Z) (x : A) :
  find (fun y => key y =? k) l = Some x -> In x l /\ key x = k.
Proof.
  intros H. apply find_some in H. destruct H as [Hin Hk].
  apply Z.eqb_eq in Hk. auto.
Qed.

Lemma find_key_none {A : Type} (key : A -> Z) (l : list A) (k : Z) :
  ~ In k (map key l) -> find (fun y => key y =? k) l = None.
Proof.
  intros H. apply forall_false_find_none. intros x Hx. apply Z.eqb_neq.
  intros <-. apply H. now apply in_map.
Qed.

(** In a table with unique keys, [get] finds the row that is stored. *)
Lemma find_key_unique {A : Type} (key : A -> Z) (l : list A) (x : A) :
  NoDup (map key l) -> In x l -> find (fun y => key y =? key x) l = Some x.
Proof.
  induction l as [|y l IH]; simpl; intros Hnd Hin; [contradiction|].
  inversion Hnd as [|k ks Hy Hl]; subst.
  destruct Hin as [->|Hin].
  - now rewrite Z.eqb_refl.
  - destruct (key y =? key x) eqn:E; [|auto].
    apply Z.eqb_eq in E. exfalso. apply Hy. rewrite E. now apply in_map.
Qed.

Lemma column_is_Some (c v : string) : column_is c (Some v) = true <-> c = v.
Proof. simpl. apply String.eqb_eq. Qed.

Lemma find_column_none {A : Type} (col : A -> string) (l : list A) (v : string) :
  find (fun y => column_is (col y) (Some v)) l = None <-> ~ In v (map col l).
Proof.
  split.
  - intros H Hin. apply in_map_iff in Hin. destruct Hin as (x & <- & Hx).
    pose proof (find_none _ _ H x Hx) as Hf. simpl in Hf.
    now rewrite String.eqb_refl in Hf.
  - intros H. apply forall_false_find_none. intros x Hx. simpl.
    apply String.eqb_neq. intros <-. apply H. now apply in_map.
Qed.

Lemma find_column_snoc {A : Type} (col : A -> string) (l : list A) (x : A) :
  ~ In (col x) (map col l) ->
  find (fun y => column_is (col y) (Some (col x))) (l ++ [x]) = Some x.
Proof.
  intros H. rewrite find_app_r by (now apply find_column_none).
  simpl. now rewrite String.eqb_refl.
Qed.

(** ** What each writing handler does to the tables *)

Lemma admin_add_student_effect st sess meth url f :
  snd (admin_add_student st sess meth url f) = st
  \/ exists roll name batch course year,
       f = mkform (Some roll) (Some name) (Some batch) (Some course) (Some year)
                  (f_device_id f)
       /\ Student_by_roll st (Some roll) = None
       /\ admin_add_student st sess meth url f
          = (Http (Redirect "/admin/dashboard"
                     [("Student added successfully!", "success")]),
             set_students st
               (students st
                ++ [Student.mk (fresh_id (map Student.id (students st)))
                               roll name batch course year (f_device_id f)])).
Proof.
  unfold admin_add_student.
  destruct (negb _); [now left|].
  destruct meth; [now left|now left|].
  destruct (Student_by_roll st (f_roll f)) eqn:Hroll; [now left|].
  destruct f as [[r|] [n|] [b|] [c|] [y|] d]; simpl in *; try (now left).
  right. exists r, n, b, c, y. auto.
Qed.

Lemma admin_edit_student_effect st sess meth url sid f :
  snd (admin_edit_student st sess meth url sid f) = st
  \/ exists student roll name batch course year,
       Student_get st sid = Some student
       /\ f = mkform (Some roll) (Some name) (Some batch) (Some course) (Some year)
                     (f_device_id f)
       /\ (roll = Student.roll_number student
           \/ Student_by_roll st (Some roll) = None)
       /\ admin_edit_student st sess meth url sid f
          = (Http (Redirect "/admin/students"
                     [("Student updated successfully!", "success")]),
             set_students st
               (map (fun s => if Student.id s =? Student.id student
                              then Student.mk (Student.id student) roll name batch
                                              course year (or_None (f_device_id f))
                              else s) (students st))).
Proof.
  unfold admin_edit_student.
  destruct (negb _); [now left|].
  destruct (Student_get st sid) as [student|] eqn:Hget; [|now left].
  destruct meth; [now left|now left|].
  destruct f as [[r|] [n|] [b|] [c|] [y|] d]; cbn [f_roll f_name f_batch f_course
    f_year f_device_id];
    try (destruct (negb _); [destruct (Student_by_roll _ _)|]; now left).
  destruct (column_is (Student.roll_number student) (Some r)) eqn:Hsame; cbn [negb].
  - right. exists student, r, n, b, c, y. apply column_is_Some in Hsame. auto.
  - destruct (Student_by_roll st (Some r)) eqn:Hother; [now left|].
    right. exists student, r, n, b, c, y. auto.
Qed.

Lemma admin_delete_student_effect st sess sid :
  snd (admin_delete_student st sess sid) = st
  \/ exists student,
       Student_get st sid = Some student
       /\ Student.id student = sid
       /\ admin_delete_student st sess sid
          = (Http (Redirect "/admin/students"
                     [("Student deleted successfully!", "success")]),
             set_students
               (set_attendance st
                  (filter (fun a => negb (Attendance.student_id a =? sid))
                          (attendance st)))
               (filter (fun s => negb (Student.id s =? sid)) (students st))).
Proof.
  unfold admin_delete_student.
  destruct (negb _); [now left|].
  destruct (Student_get st sid) as [student|] eqn:Hget; [|now left].
  right. exists student.
  destruct (find_key_in _ _ _ _ Hget) as [_ ->]. auto.
Qed.

Lemma admin_add_teacher_effect st sess meth url name username hashed :
  snd (admin_add_teacher st sess meth url name username hashed) = st
  \/ exists n u h,
       name = Some n /\ username = Some u /\ hashed = inr h
       /\ Teacher_by_username st (Some u) = None
       /\ admin_add_teacher st sess meth url name username hashed
          = (Http (Redirect "/admin/dashboard"
                     [("Teacher added successfully!", "success")]),
             set_teachers st
               (teachers st
                ++ [Teacher.mk (fresh_id (map Teacher.id (teachers st))) n u h])).
Proof.
  unfold admin_add_teacher.
  destruct (negb _); [now left|].
  destruct meth; [now left|now left|].
  destruct (Teacher_by_username st username) eqn:Hu; [now left|].
  destruct hashed as [e|h]; [now left|].
  destruct name as [n|]; [|now left].
  destruct username as [u|]; [|now left].
  right. exists n, u, h. auto.
Qed.

Lemma admin_create_session_effect lib st sess meth course batch room
    teacher date start end_ :
  snd (admin_create_session lib st sess meth course batch room
                            teacher date start end_) = st
  \/ exists c b r t d s e,
       course = Some c /\ batch = Some b /\ room = Some r
       /\ teacher = inr t /\ date = inr d /\ start = inr s /\ end_ = inr e
       /\ admin_create_session lib st sess meth course batch room
                               teacher date start end_
          = (Http (Redirect "/admin/dashboard" [("Session created!", "success")]),
             set_class_sessions st
               (class_sessions st
                ++ [ClassSession.mk
                      (fresh_id (map ClassSession.id (class_sessions st)))
                      c b r t d s e])).
Proof.
  unfold admin_create_session.
  destruct (negb _); [now left|].
  destruct meth; [now left|now left|].
  destruct teacher as [?|t]; [now left|].
  destruct date as [?|d]; [now left|].
  destruct start as [?|s]; [now left|].
  destruct end_ as [?|e]; [now left|].
  destruct course as [c|]; [|now left].
  destruct batch as [b|]; [|now left].
  destruct room as [r|]; [|now left].
  right. exists c, b, r, t, d, s, e. repeat split; reflexivity.
Qed.

Lemma student_scan_effect st now nd req :
  snd (student_scan st now nd req) = st
  \/ exists s cs qs,
       In s (students st) /\ In cs (class_sessions st)
       /\ Attendance_first st (Student.id s) (ClassSession.id cs) = None
       /\ student_scan st now nd req
          = (Render_student_success s cs qs,
             set_attendance st
               (attendance st
                ++ [Attendance.mk (fresh_id (map Attendance.id (attendance st)))
                                  (Student.id s) (ClassSession.id cs) nd "Present"])).
Proof.
  destruct (student_scan st now nd req) as [r st'] eqn:H.
  destruct r as [| | | | | |s cs qs];
    try (left; revert H; unfold student_scan;
         repeat match goal with
                | |- context [if ?b then _ else _] => destruct b
                | |- context [match ?x with _ => _ end] => destruct x
                end; intros E; simpl; congruence).
  right. exists s, cs, qs.
  apply student_scan_success_inv in H.
  destruct H as (_ & _ & _ & Hcs & Hs & Ha & ->).
  apply find_some in Hs. apply find_some in Hcs. tauto.
Qed.

Lemma admin_generate_qr_effect st role now tok cid :
  snd (admin_generate_qr st role now tok cid) = st
  \/ exists cs,
       ClassSession_get st cid = Some cs
       /\ snd (admin_generate_qr st role now tok cid)
          = set_qr_sessions st
              (map (QRSession_deactivate_for cid) (qr_sessions st)
               ++ [QRSession.mk (fresh_id (map QRSession.id (qr_sessions st)))
                                cid tok now (now + timedelta_seconds 30) true]).
Proof.
  unfold admin_generate_qr.
  destruct (negb _); [now left|].
  destruct (ClassSession_get st cid) as [cs|]; [|now left].
  right. exists cs. rewrite deactivate_for_ids. auto.
Qed.

(** ** Integrity is kept by every handler *)

Ltac tables :=
  unfold unique_keys, unique_roll_numbers, unique_usernames, attendance_refers,
         one_record_per_pair, at_most_one_active, wf_store, ClassSession_get in *;
  cbn [snd admins teachers students class_sessions qr_sessions attendance
       set_admins set_teachers set_students set_class_sessions set_qr_sessions
       set_attendance] in *.

Lemma find_app_found {A : Type} (p : A -> bool) (l l' : list A) :
  find p l <> None -> find p (l ++ l') <> None.
Proof.
  induction l as [|x l IH]; simpl; [congruence|].
  destruct (p x); auto.
Qed.

Lemma create_default_admin_integrity st h :
  integrity st -> integrity (create_default_admin st h).
Proof.
  intros [Hk Hr Hu Hf Hp Ha Hw]. unfold create_default_admin.
  destruct (admins st); constructor; tables; auto.
Qed.

Lemma admin_add_student_integrity st sess meth url f :
  integrity st -> integrity (snd (admin_add_student st sess meth url f)).
Proof.
  intros H.
  destruct (admin_add_student_effect st sess meth url f)
    as [->|(r & n & b & c & y & _ & Hnone & ->)]; [exact H|].
  destruct H as [Hk Hr Hu Hf Hp Ha Hw]. constructor; tables; auto.
  - destruct Hk as (Hs & Hrest). split; [|exact Hrest].
    rewrite map_app. apply NoDup_snoc; [exact Hs|apply fresh_id_not_in].
  - rewrite map_app. apply NoDup_snoc; [exact Hr|].
    now apply find_column_none.
  - intros a Ha'. destruct (Hf a Ha') as [H1 H2]. split; [|exact H2].
    rewrite map_app. apply in_or_app. now left.
Qed.

Lemma edit_keeps_ids (k : Z) (s' : Student.t) (l : list Student.t) :
  Student.id s' = k ->
  map Student.id (map (fun s => if Student.id s =? k then s' else s) l)
  = map Student.id l.
Proof.
  intros Hk. rewrite map_map. apply map_ext. intros s.
  destruct (Student.id s =? k) eqn:E; [|reflexivity].
  apply Z.eqb_eq in E. congruence.
Qed.

Lemma edit_untouched (k : Z) (s' : Student.t) (l : list Student.t) :
  ~ In k (map Student.id l) ->
  map (fun s => if Student.id s =? k then s' else s) l = l.
Proof.
  induction l as [|y l IH]; simpl; intros H; [reflexivity|].
  destruct (Student.id y =? k) eqn:E.
  - apply Z.eqb_eq in E. tauto.
  - rewrite IH; tauto.
Qed.

Lemma edit_keeps_roll_numbers (k : Z) (s' : Student.t) (l : list Student.t) :
  NoDup (map Student.id l) ->
  NoDup (map Student.roll_number l) ->
  (~ In (Student.roll_number s') (map Student.roll_number l)
   \/ exists x, In x l /\ Student.id x = k
                /\ Student.roll_number x = Student.roll_number s') ->
  NoDup (map Student.roll_number
             (map (fun s => if Student.id s =? k then s' else s) l)).
Proof.
  induction l as [|y l IH]; simpl; intros Hid Hroll Hr; [constructor|].
  inversion Hid as [|? ? Hy Hid']; subst.
  inversion Hroll as [|? ? Hry Hroll']; subst.
  destruct (Student.id y =? k) eqn:E.
  - apply Z.eqb_eq in E. subst k. rewrite edit_untouched by exact Hy.
    constructor; [|exact Hroll'].
    destruct Hr as [Hr|(x & [<-|Hx] & Hxk & Hxr)].
    + tauto.
    + now rewrite <- Hxr.
    + exfalso. apply Hy. rewrite <- Hxk. now apply in_map.
  - apply Z.eqb_neq in E.
    assert (Hne : Student.roll_number s' <> Student.roll_number y).
    { destruct Hr as [Hr|(x & [<-|Hx] & Hxk & Hxr)];
        [intros Heq; apply Hr; left; congruence|congruence|].
      intros Heq. apply Hry. rewrite <- Heq, <- Hxr. now apply in_map. }
    constructor.
    + intros Hin. apply in_map_iff in Hin. destruct Hin as (w & Hw & Hin).
      apply in_map_iff in Hin. destruct Hin as (z & <- & Hz).
      destruct (Student.id z =? k); [congruence|].
      apply Hry. rewrite <- Hw. now apply in_map.
    + apply IH; auto.
      destruct Hr as [Hr|(x & [<-|Hx] & Hxk & Hxr)]; [tauto|congruence|].
      right. eauto.
Qed.

Lemma admin_edit_student_integrity st sess meth url sid f :
  integrity st -> integrity (snd (admin_edit_student st sess meth url sid f)).
Proof.
  intros H.
  destruct (admin_edit_student_effect st sess meth url sid f)
    as [->|(s0 & r & n & b & c & y & Hget & _ & Hroll & ->)]; [exact H|].
  destruct H as [Hk Hr Hu Hf Hp Ha Hw].
  destruct (find_key_in _ _ _ _ Hget) as [Hin Hid].
  constructor; tables; auto.
  - rewrite edit_keeps_ids by reflexivity. exact Hk.
  - apply edit_keeps_roll_numbers; [tauto|exact Hr|]. simpl.
    destruct Hroll as [->|Hnone].
    + right. eauto.
    + left. now apply find_column_none.
  - intros a Ha'. rewrite edit_keeps_ids by reflexivity. now apply Hf.
Qed.

Lemma admin_delete_student_integrity st sess sid :
  integrity st -> integrity (snd (admin_delete_student st sess sid)).
Proof.
  intros H.
  destruct (admin_delete_student_effect st sess sid)
    as [->|(s0 & Hget & Hid & ->)]; [exact H|].
  destruct H as [Hk Hr Hu Hf Hp Ha Hw]. constructor; tables; auto.
  - destruct Hk as (H1 & H2 & H3 & H4 & H5).
    repeat split; auto using kept_rows_unique.
  - now apply kept_rows_unique.
  - intros a Ha'. apply filter_In in Ha'. destruct Ha' as [Ha' Hne].
    destruct (Hf a Ha') as [H1 H2]. split; [|exact H2].
    apply in_map_iff in H1. destruct H1 as (x & Hx & Hxin).
    apply in_map_iff. exists x. split; [exact Hx|].
    apply filter_In. split; [exact Hxin|]. now rewrite Hx.
  - now apply kept_rows_unique.
Qed.

Lemma admin_add_teacher_integrity st sess meth url name username hashed :
  integrity st ->
  integrity (snd (admin_add_teacher st sess meth url name username hashed)).
Proof.
  intros H.
  destruct (admin_add_teacher_effect st sess meth url name username hashed)
    as [->|(n & u & h & _ & _ & _ & Hnone & ->)]; [exact H|].
  destruct H as [Hk Hr Hu Hf Hp Ha Hw]. constructor; tables; auto.
  - destruct Hk as (H1 & H2 & H3 & H4 & H5). repeat split; auto.
    rewrite map_app. apply NoDup_snoc; [exact H5|apply fresh_id_not_in].
  - rewrite map_app. apply NoDup_snoc; [exact Hu|].
    now apply find_column_none.
Qed.

Lemma admin_create_session_integrity lib st sess meth course batch room
    teacher date start end_ :
  integrity st ->
  integrity (snd (admin_create_session lib st sess meth course batch room
                                       teacher date start end_)).
Proof.
  intros H.
  destruct (admin_create_session_effect lib st sess meth course batch room
              teacher date start end_)
    as [->|(c & b & r & t & d & s & e & _ & _ & _ & _ & _ & _ & _ & ->)];
    [exact H|].
  destruct H as [Hk Hr Hu Hf Hp Ha Hw]. constructor; tables; auto.
  - destruct Hk as (H1 & H2 & H3 & H4 & H5). repeat split; auto.
    rewrite map_app. apply NoDup_snoc; [exact H2|apply fresh_id_not_in].
  - intros a Ha'. destruct (Hf a Ha') as [H1 H2]. split; [exact H1|].
    rewrite map_app. apply in_or_app. now left.
  - intros q Hq. destruct (Hw q Hq) as [H1 H2]. split; [exact H1|].
    now apply find_app_found.
Qed.

Lemma admin_generate_qr_integrity st role now tok cid :
  tok <> "" ->
  integrity st -> integrity (snd (admin_generate_qr st role now tok cid)).
Proof.
  intros Htok H.
  pose proof (admin_generate_qr_at_most_one_active st role now tok cid
                (int_active _ H)) as Hact.
  pose proof (admin_generate_qr_wf st role now tok cid Htok (int_wf _ H)) as Hwf.
  destruct (admin_generate_qr_effect st role now tok cid)
    as [->|(cs & _ & Heq)]; [exact H|].
  rewrite Heq in *.
  destruct H as [Hk Hr Hu Hf Hp Ha Hw]. constructor; auto; tables; auto.
  destruct Hk as (H1 & H2 & H3 & H4 & H5). repeat split; auto.
  rewrite map_app, deactivate_for_ids.
  apply NoDup_snoc; [exact H3|apply fresh_id_not_in].
Qed.

Lemma student_scan_integrity st now nd req :
  integrity st -> integrity (snd (student_scan st now nd req)).
Proof.
  intros H.
  destruct (student_scan_effect st now nd req)
    as [->|(s & cs & qs & Hs & Hcs & Hnone & ->)]; [exact H|].
  destruct H as [Hk Hr Hu Hf Hp Ha Hw]. constructor; tables; auto.
  - destruct Hk as (H1 & H2 & H3 & H4 & H5). repeat split; auto.
    rewrite map_app. apply NoDup_snoc; [exact H4|apply fresh_id_not_in].
  - intros a Ha'. apply in_app_or in Ha'. destruct Ha' as [Ha'|[<-|[]]].
    + now apply Hf.
    + simpl. split; now apply in_map.
  - rewrite map_app. apply NoDup_snoc; [exact Hp|].
    intros Hin. apply in_map_iff in Hin. destruct Hin as (a & Hpair & Hin).
    pose proof (find_none _ _ Hnone a Hin) as Hfalse.
    unfold attendance_pair in Hpair. injection Hpair as H1 H2.
    unfold Attendance_filter_by in Hfalse. simpl in H1, H2.
    rewrite H1, H2, !Z.eqb_refl in Hfalse. discriminate.
Qed.

Lemma step_integrity lib st st' :
  integrity st -> step lib st st' -> integrity st'.
Proof.
  intros H Hstep. destruct Hstep.
  - now apply create_default_admin_integrity.
  - now apply admin_add_student_integrity.
  - now apply admin_edit_student_integrity.
  - now apply admin_delete_student_integrity.
  - now apply admin_add_teacher_integrity.
  - now apply admin_create_session_integrity.
  - now apply admin_generate_qr_integrity.
  - now apply student_scan_integrity.
Qed.

Lemma integrity_empty : integrity empty_db.
Proof.
  constructor; tables; simpl; repeat split; try constructor;
    try (intros ? []); auto.
Qed.

Lemma reachable_integrity lib st : reachable lib st -> integrity st.
Proof.
  induction 1 as [|st st' _ IH Hstep].
  - apply integrity_empty.
  - exact (step_integrity lib st st' IH Hstep).
Qed.

(** ** Invariants of the reachable databases *)

(** X1.  In every database that the application reaches, no two students
    have the same roll number: the checks of [admin_add_student] and
    [admin_edit_student] keep the column unique. *)
Theorem reachable_unique_roll_numbers lib st :
  reachable lib st -> unique_roll_numbers st.
Proof. intros H. exact (int_roll_numbers _ (reachable_integrity lib st H)). Qed.

(** X2.  In every database that the application reaches, no two teachers
    have the same username. *)
Theorem reachable_unique_usernames lib st :
  reachable lib st -> unique_usernames st.
Proof. intros H. exact (int_usernames _ (reachable_integrity lib st H)). Qed.

(** X3.  A request that is handled on its own keeps the references of the
    attendance table: when every attendance row refers to a stored student
    and a stored class session before it, so it is after it.  A scan records
    a row only for the student and the class session it found, and
    [admin_delete_student] deletes the attendance of the student it deletes.
    Nothing is said of a scan that overlaps with a deletion. *)
Theorem request_keeps_attendance_refers lib st st' :
  step lib st st' -> attendance_refers st -> attendance_refers st'.
Proof.
  intros Hstep.
  destruct Hstep as [x h|x sess meth u f|x sess meth u sid f|x sess sid
                    |x sess meth u name username hashed
                    |x sess meth course batch room teacher date start end_
                    |x role now tok cid Htok|x now nd req];
    intros Hf.
  - unfold create_default_admin. destruct (admins x); exact Hf.
  - destruct (admin_add_student_effect x sess meth u f)
      as [->|(? & ? & ? & ? & ? & _ & _ & ->)]; [exact Hf|].
    tables. intros a Ha. destruct (Hf a Ha) as [H1 H2]. split; [|exact H2].
    rewrite map_app. apply in_or_app. now left.
  - destruct (admin_edit_student_effect x sess meth u sid f)
      as [->|(? & ? & ? & ? & ? & ? & _ & _ & _ & ->)]; [exact Hf|].
    tables. intros a Ha. rewrite edit_keeps_ids by reflexivity. now apply Hf.
  - destruct (admin_delete_student_effect x sess sid)
      as [->|(? & _ & _ & ->)]; [exact Hf|].
    tables. intros a Ha. apply filter_In in Ha. destruct Ha as [Ha Hne].
    destruct (Hf a Ha) as [H1 H2]. split; [|exact H2].
    apply in_map_iff in H1. destruct H1 as (y & Hy & Hyin).
    apply in_map_iff. exists y. split; [exact Hy|].
    apply filter_In. split; [exact Hyin|]. now rewrite Hy.
  - destruct (admin_add_teacher_effect x sess meth u name username hashed)
      as [->|(? & ? & ? & _ & _ & _ & _ & ->)]; exact Hf.
  - destruct (admin_create_session_effect lib x sess meth course batch room
                teacher date start end_)
      as [->|(? & ? & ? & ? & ? & ? & ? & _ & _ & _ & _ & _ & _ & _ & ->)];
      [exact Hf|].
    tables. intros a Ha. destruct (Hf a Ha) as [H1 H2]. split; [exact H1|].
    rewrite map_app. apply in_or_app. now left.
  - destruct (admin_generate_qr_effect x role now tok cid)
      as [->|(cs & _ & ->)]; exact Hf.
  - destruct (student_scan_effect x now nd req)
      as [->|(s & cs & qs & Hs & Hcs & _ & ->)]; [exact Hf|].
    tables. intros a Ha. apply in_app_or in Ha. destruct Ha as [Ha|[<-|[]]].
    + now apply Hf.
    + simpl. split; now apply in_map.
Qed.

(** X4.  A request that is handled on its own keeps the attendance table
    free of duplicates: when there is at most one attendance row per
    (student, class session) before it, so there is after it.  A scan whose
    duplicate test and insert are not separated by another scan for the same
    pair inserts only when the test found no row.  Nothing is said of two
    scans that overlap: the table has no unique constraint on the pair. *)
Theorem request_keeps_one_record_per_pair lib st st' :
  step lib st st' -> one_record_per_pair st -> one_record_per_pair st'.
Proof.
  intros Hstep.
  destruct Hstep as [x h|x sess meth u f|x sess meth u sid f|x sess sid
                    |x sess meth u name username hashed
                    |x sess meth course batch room teacher date start end_
                    |x role now tok cid Htok|x now nd req];
    intros Hp.
  - unfold create_default_admin. destruct (admins x); exact Hp.
  - destruct (admin_add_student_effect x sess meth u f)
      as [->|(? & ? & ? & ? & ? & _ & _ & ->)]; exact Hp.
  - destruct (admin_edit_student_effect x sess meth u sid f)
      as [->|(? & ? & ? & ? & ? & ? & _ & _ & _ & ->)]; exact Hp.
  - destruct (admin_delete_student_effect x sess sid)
      as [->|(? & _ & _ & ->)]; [exact Hp|].
    tables. now apply kept_rows_unique.
  - destruct (admin_add_teacher_effect x sess meth u name username hashed)
      as [->|(? & ? & ? & _ & _ & _ & _ & ->)]; exact Hp.
  - destruct (admin_create_session_effect lib x sess meth course batch room
                teacher date start end_)
      as [->|(? & ? & ? & ? & ? & ? & ? & _ & _ & _ & _ & _ & _ & _ & ->)];
      exact Hp.
  - destruct (admin_generate_qr_effect x role now tok cid)
      as [->|(cs & _ & ->)]; exact Hp.
  - destruct (student_scan_effect x now nd req)
      as [->|(s & cs & qs & _ & _ & Hnone & ->)]; [exact Hp|].
    tables. rewrite map_app. apply NoDup_snoc; [exact Hp|].
    intros Hin. apply in_map_iff in Hin. destruct Hin as (a & Hpair & Hin).
    pose proof (find_none _ _ Hnone a Hin) as Hfalse.
    unfold attendance_pair in Hpair. injection Hpair as H1 H2.
    unfold Attendance_filter_by in Hfalse. simpl in H1, H2.
    rewrite H1, H2, !Z.eqb_refl in Hfalse. discriminate.
Qed.

(** X5.  In every database that the application reaches, every class
    session has at most one active token. *)
Theorem reachable_at_most_one_active lib st :
  reachable lib st -> at_most_one_active st.
Proof. intros H. exact (int_active _ (reachable_integrity lib st H)). Qed.

(** X6.  In every database that the application reaches, every token has a
    non-empty secret and belongs to a stored class session, so that the
    scan handler never meets a token without its class session. *)
Theorem reachable_tokens_well_formed lib st :
  reachable lib st ->
  wf_store st
  /\ forall now nd req, fst (student_scan st now nd req) <> Raise "AttributeError".
Proof.
  intros H. pose proof (int_wf _ (reachable_integrity lib st H)) as Hwf.
  split; [exact Hwf|].
  intros now nd req. unfold student_scan.
  destruct (_ || _); [discriminate|].
  destruct (QRSession_get st _) as [qs|] eqn:Hget; [|discriminate].
  destruct (_ || _); [discriminate|].
  destruct (_ >? _); [discriminate|].
  destruct (wf_store_stored _ _ _ Hwf Hget) as (_ & cs & ->).
  destruct (method req); try discriminate.
  destruct (negb _); [discriminate|].
  destruct (Student_first _ _ _ _); [|discriminate].
  destruct (Attendance_first _ _ _); discriminate.
Qed.

(** ** Authentication *)

(** X7.  [login] changes the session only when it grants it: either the
    session is returned as it was and the answer is no redirect, or the
    request was a POST with login type "admin" or "teacher", a stored user of
    that kind has the submitted username, the password check accepted the
    submitted password against that user's hash, the new session holds that
    login type and that user's key, and the answer redirects to the
    dashboard of that login type. *)
Theorem login_grants_only_checked_users lib st sess meth login_type username
    password :
  let r := login lib st sess meth login_type username password in
  (snd r = sess /\ forall loc fl, fst r <> Http (Redirect loc fl))
  \/ (meth = POST /\ login_type = Some "admin"
      /\ exists a, Admin_by_username st username = Some a
           /\ check_password_hash lib (Admin.password_hash a) password = inr true
           /\ r = (Http (Redirect "/admin/dashboard" []),
                   Session.mk (Some "admin") (Some (Admin.id a))))
  \/ (meth = POST /\ login_type = Some "teacher"
      /\ exists t, Teacher_by_username st username = Some t
           /\ check_password_hash lib (Teacher.password_hash t) password = inr true
           /\ r = (Http (Redirect "/teacher/dashboard" []),
                   Session.mk (Some "teacher") (Some (Teacher.id t)))).
Proof.
  unfold login. destruct meth; try (left; split; [reflexivity|discriminate]).
  destruct (column_is "admin" login_type) eqn:Hadm.
  - destruct login_type as [lt|]; [|discriminate].
    apply column_is_Some in Hadm. subst lt.
    destruct (Admin_by_username st username) as [a|];
      [|left; split; [reflexivity|discriminate]].
    cbn [option_map].
    destruct (check_password_hash lib (Admin.password_hash a) password)
      as [e|[|]] eqn:Hc; try (left; split; [reflexivity|discriminate]).
    right. left. repeat split. exists a. auto.
  - destruct (column_is "teacher" login_type) eqn:Htea;
      [|left; split; [reflexivity|discriminate]].
    destruct login_type as [lt|]; [|discriminate].
    apply column_is_Some in Htea. subst lt.
    destruct (Teacher_by_username st username) as [t|];
      [|left; split; [reflexivity|discriminate]].
    cbn [option_map].
    destruct (check_password_hash lib (Teacher.password_hash t) password)
      as [e|[|]] eqn:Hc; try (left; split; [reflexivity|discriminate]).
    right. right. repeat split. exists t. auto.
Qed.

(** X8.  Called again, [create_default_admin] adds nothing: after the first
    call there is an administrator, and a database that has one is returned
    as it is. *)
Theorem create_default_admin_once st h h' :
  create_default_admin (create_default_admin st h) h' = create_default_admin st h
  /\ (admins st <> [] -> create_default_admin st h = st)
  /\ admins (create_default_admin st h) <> [].
Proof.
  unfold create_default_admin.
  destruct (admins st) as [|a l] eqn:Ha; simpl.
  - repeat split; [congruence|discriminate].
  - rewrite Ha. repeat split. congruence.
Qed.

(** X9.  On a database without administrators, [create_default_admin]
    makes the login "admin" / "admin123" work: when the password check
    accepts "admin123" against the stored hash, that login is granted with
    role "admin". *)
Theorem default_admin_can_log_in lib st sess h :
  admins st = [] ->
  check_password_hash lib h (Some "admin123") = inr true ->
  exists a,
    admins (create_default_admin st h) = [a]
    /\ Admin.username a = "admin"
    /\ login lib (create_default_admin st h) sess POST
             (Some "admin") (Some "admin") (Some "admin123")
       = (Http (Redirect "/admin/dashboard" []),
          Session.mk (Some "admin") (Some (Admin.id a))).
Proof.
  intros Ha Hc. unfold create_default_admin. rewrite Ha.
  eexists. split; [reflexivity|]. split; [reflexivity|].
  unfold login, Admin_by_username. simpl. now rewrite Hc.
Qed.

Lemma Teacher_by_username_new st t :
  Teacher_by_username st (Some (Teacher.username t)) = None ->
  Teacher_by_username (set_teachers st (teachers st ++ [t]))
                      (Some (Teacher.username t)) = Some t.
Proof.
  unfold Teacher_by_username. cbn [teachers set_teachers]. intros H.
  rewrite find_app_r by exact H. simpl. now rewrite String.eqb_refl.
Qed.

(** X10.  A teacher that [admin_add_teacher] has stored can log in: when the
    request is an administrator's POST with a name, a username that no
    teacher has and a password that hashes to [h], the teacher is stored
    with a new key, and a login as "teacher" with that username and a
    password that the check accepts against [h] is granted with that key. *)
Theorem added_teacher_can_log_in lib st sess sess' url n u h password :
  login_required (Session.role sess) "admin" = true ->
  Teacher_by_username st (Some u) = None ->
  check_password_hash lib h password = inr true ->
  exists t st',
    admin_add_teacher st sess POST url (Some n) (Some u) (inr h)
    = (Http (Redirect "/admin/dashboard" [("Teacher added successfully!", "success")]),
       st')
    /\ teachers st' = teachers st ++ [t]
    /\ Teacher.name t = n /\ Teacher.username t = u
    /\ ~ In (Teacher.id t) (map Teacher.id (teachers st))
    /\ login lib st' sess' POST (Some "teacher") (Some u) password
       = (Http (Redirect "/teacher/dashboard" []),
          Session.mk (Some "teacher") (Some (Teacher.id t))).
Proof.
  intros Hadm Hnone Hc.
  set (t := Teacher.mk (fresh_id (map Teacher.id (teachers st))) n u h).
  exists t, (set_teachers st (teachers st ++ [t])).
  pose proof (Teacher_by_username_new st t Hnone) as Hnew.
  split; [|split; [|split; [|split; [|split]]]]; try reflexivity.
  - unfold admin_add_teacher. rewrite Hadm, Hnone. reflexivity.
  - apply fresh_id_not_in.
  - unfold login. cbn [column_is String.eqb Ascii.eqb Bool.eqb].
    change u with (Teacher.username t). rewrite Hnew.
    cbn [option_map]. change (Teacher.password_hash t) with h.
    rewrite Hc. reflexivity.
Qed.

(** X11.  Without the role "admin" in the session, no administration handler
    reads or writes anything: each of them answers with the redirect to the
    login page and returns the database it was given. *)
Theorem admin_handlers_require_admin lib st sess :
  Session.role sess <> Some "admin" ->
  (forall meth url f,
      admin_add_student st sess meth url f = (Http (Redirect "/" []), st))
  /\ (forall meth url sid f,
      admin_edit_student st sess meth url sid f = (Http (Redirect "/" []), st))
  /\ (forall sid,
      admin_delete_student st sess sid = (Http (Redirect "/" []), st))
  /\ (forall meth url name username hashed,
      admin_add_teacher st sess meth url name username hashed
      = (Http (Redirect "/" []), st))
  /\ (forall meth course batch room teacher date start end_,
      admin_create_session lib st sess meth course batch room teacher date
                           start end_ = (Http (Redirect "/" []), st))
  /\ (forall now tok cid,
      admin_generate_qr st (Session.role sess) now tok cid = (Redirect "/" [], st))
  /\ (forall meth now mode session_id,
      admin_export lib st sess meth now mode session_id = Http (Redirect "/" []))
  /\ admin_dashboard st sess = Http (Redirect "/" []).
Proof.
  intros Hrole.
  assert (Hg : login_required (Session.role sess) "admin" = false).
  { unfold login_required. destruct (Session.role sess) as [r|]; [|reflexivity].
    apply String.eqb_neq. congruence. }
  unfold admin_add_student, admin_edit_student, admin_delete_student,
    admin_add_teacher, admin_create_session, admin_generate_qr, admin_export,
    admin_dashboard.
  rewrite Hg. cbn [negb]. repeat split.
Qed.

(** X12.  A session that [login] granted to a teacher opens the teacher
    pages and none of the administration: with it, [teacher_dashboard] and
    [teacher_view] render their pages, while the handlers that write answer
    with the redirect to the login page and leave the database as it is;
    after [logout] the teacher pages redirect as well. *)
Theorem teacher_session_is_not_admin lib st st0 sess0 username password loc fl sess :
  login lib st0 sess0 POST (Some "teacher") username password
  = (Http (Redirect loc fl), sess) ->
  (exists t, Teacher_by_username st0 username = Some t
             /\ Session.user_id sess = Some (Teacher.id t))
  /\ (forall now, exists l, teacher_dashboard st sess now = teacher_dashboard_html l)
  /\ (forall cid, exists l, teacher_view st sess cid = teacher_attendance_html l)
  /\ (forall meth url f,
        admin_add_student st sess meth url f = (Http (Redirect "/" []), st))
  /\ (forall sid, admin_delete_student st sess sid = (Http (Redirect "/" []), st))
  /\ (forall now tok cid,
        admin_generate_qr st (Session.role sess) now tok cid = (Redirect "/" [], st))
  /\ (forall now, teacher_dashboard st (snd (logout sess)) now = Http (Redirect "/" []))
  /\ (forall cid, teacher_view st (snd (logout sess)) cid = Http (Redirect "/" [])).
Proof.
  unfold login. cbn [column_is String.eqb Ascii.eqb Bool.eqb].
  destruct (Teacher_by_username st0 username) as [t|]; [|discriminate].
  cbn [option_map].
  destruct (check_password_hash lib (Teacher.password_hash t) password)
    as [e|[|]]; try discriminate.
  intros [= _ _ <-].
  unfold teacher_dashboard, teacher_view, admin_add_student, admin_delete_student,
    admin_generate_qr, logout.
  cbn. repeat split; eauto.
Qed.

(** ** Students *)

Lemma Student_by_roll_none_first st roll batch course :
  Student_by_roll st (Some roll) = None ->
  Student_first st roll batch course = None.
Proof.
  intros H. apply forall_false_find_none. intros s Hs.
  pose proof (find_none _ _ H s Hs) as Hf. simpl in Hf.
  unfold Student_filter_by. now rewrite Hf.
Qed.

Lemma has_attendance_false st k :
  (forall a, In a (attendance st) -> Attendance.student_id a <> k) ->
  has_attendance st k = false.
Proof.
  intros H. unfold has_attendance.
  destruct (existsb _ _) eqn:E; [|reflexivity].
  apply existsb_exists in E. destruct E as (a & Ha & Hk).
  apply Z.eqb_eq in Hk. now apply H in Ha.
Qed.

(** X13.  A student that [admin_add_student] accepts is found afterwards:
    for an administrator's POST with every required field and a roll number
    that no student has, the student is appended with a new key and the
    fields of the form; the lookups by roll number, by key, and the one the
    scan handler makes (roll number, batch, course) all return that row; and
    when attendance rows refer to stored students only, the new student
    starts without attendance, also when the key was a deleted student's. *)
Theorem added_student_is_found st sess url roll name batch course year dev :
  login_required (Session.role sess) "admin" = true ->
  Student_by_roll st (Some roll) = None ->
  attendance_refers st ->
  exists s st',
    admin_add_student st sess POST url
      (mkform (Some roll) (Some name) (Some batch) (Some course) (Some year) dev)
    = (Http (Redirect "/admin/dashboard" [("Student added successfully!", "success")]),
       st')
    /\ s = Student.mk (Student.id s) roll name batch course year dev
    /\ students st' = students st ++ [s]
    /\ ~ In (Student.id s) (map Student.id (students st))
    /\ Student_by_roll st' (Some roll) = Some s
    /\ Student_get st' (Student.id s) = Some s
    /\ Student_first st' roll batch course = Some s
    /\ has_attendance st' (Student.id s) = false.
Proof.
  intros Hadm Hnone Hrefs.
  set (s := Student.mk (fresh_id (map Student.id (students st)))
                       roll name batch course year dev).
  exists s, (set_students st (students st ++ [s])).
  assert (Hfresh : ~ In (Student.id s) (map Student.id (students st)))
    by apply fresh_id_not_in.
  split; [|split; [|split; [|split; [|split; [|split; [|split]]]]]];
    try reflexivity.
  - unfold admin_add_student. rewrite Hadm. cbn [negb f_roll].
    rewrite Hnone. reflexivity.
  - exact Hfresh.
  - unfold Student_by_roll in *. cbn [students set_students].
    rewrite find_app_r by exact Hnone. simpl. now rewrite String.eqb_refl.
  - unfold Student_get. cbn [students set_students].
    rewrite find_app_r by (now apply find_key_none).
    cbn [find]. now rewrite Z.eqb_refl.
  - pose proof (Student_by_roll_none_first st roll batch course Hnone) as Hf.
    unfold Student_first in *. cbn [students set_students].
    rewrite find_app_r by exact Hf. unfold Student_filter_by. simpl.
    now rewrite !String.eqb_refl.
  - apply has_attendance_false. cbn [attendance set_students].
    intros a Ha Heq. apply Hfresh. rewrite <- Heq. now apply Hrefs.
Qed.

Lemma find_key_filter_other {A : Type} (key : A -> Z) (l : list A) (k sid : Z) :
  k <> sid ->
  find (fun y => key y =? k) (filter (fun y => negb (key y =? sid)) l)
  = find (fun y => key y =? k) l.
Proof.
  intros Hk. induction l as [|x l IH]; simpl; [reflexivity|].
  destruct (key x =? sid) eqn:Es; simpl.
  - apply Z.eqb_eq in Es.
    assert ((key x =? k) = false) as -> by (apply Z.eqb_neq; congruence).
    exact IH.
  - now rewrite IH.
Qed.

Lemma find_key_filter_same {A : Type} (key : A -> Z) (l : list A) (sid : Z) :
  find (fun y => key y =? sid) (filter (fun y => negb (key y =? sid)) l) = None.
Proof.
  apply forall_false_find_none. intros x Hx. apply filter_In in Hx.
  destruct Hx as [_ Hx]. now destruct (key x =? sid).
Qed.

(** X14.  What [admin_delete_student] deletes is gone and nothing else is:
    for an administrator and a stored student, the student is no longer
    found, no attendance row of that student is left, every other student is
    found as before, the attendance rows left are exactly those of the
    other students, and class sessions and tokens are untouched. *)
Theorem deleted_student_is_forgotten st sess sid s :
  login_required (Session.role sess) "admin" = true ->
  Student_get st sid = Some s ->
  exists st',
    admin_delete_student st sess sid
    = (Http (Redirect "/admin/students" [("Student deleted successfully!", "success")]),
       st')
    /\ Student_get st' sid = None
    /\ has_attendance st' sid = false
    /\ (forall k, k <> sid -> Student_get st' k = Student_get st k)
    /\ (forall a, In a (attendance st')
                  <-> In a (attendance st) /\ Attendance.student_id a <> sid)
    /\ class_sessions st' = class_sessions st
    /\ qr_sessions st' = qr_sessions st.
Proof.
  intros Hadm Hget.
  destruct (find_key_in _ _ _ _ Hget) as [_ Hid].
  eexists. unfold admin_delete_student. rewrite Hadm, Hget, Hid. cbn [negb].
  split; [reflexivity|].
  assert (Hatt : forall a,
            In a (filter (fun a => negb (Attendance.student_id a =? sid))
                         (attendance st))
            <-> In a (attendance st) /\ Attendance.student_id a <> sid).
  { intros a. rewrite filter_In, negb_true_iff, Z.eqb_neq. reflexivity. }
  repeat split.
  - apply (find_key_filter_same Student.id).
  - apply has_attendance_false. cbn [attendance set_students set_attendance].
    intros a Ha. now apply Hatt in Ha.
  - intros k Hk. now apply (find_key_filter_other Student.id).
  - now apply Hatt.
  - now apply Hatt.
  - intros [H1 H2]. now apply Hatt.
Qed.

Lemma find_key_edit_same (k : Z) (s' : Student.t) (l : list Student.t) :
  Student.id s' = k ->
  find (fun s => Student.id s =? k)
       (map (fun s => if Student.id s =? k then s' else s) l)
  = option_map (fun _ => s') (find (fun s => Student.id s =? k) l).
Proof.
  intros Hid. induction l as [|y l IH]; simpl; [reflexivity|].
  destruct (Student.id y =? k) eqn:E.
  - now rewrite Hid, Z.eqb_refl.
  - rewrite E. exact IH.
Qed.

Lemma find_key_edit_other (k k0 : Z) (s' : Student.t) (l : list Student.t) :
  Student.id s' = k0 -> k <> k0 ->
  find (fun s => Student.id s =? k)
       (map (fun s => if Student.id s =? k0 then s' else s) l)
  = find (fun s => Student.id s =? k) l.
Proof.
  intros Hid Hk. induction l as [|y l IH]; simpl; [reflexivity|].
  destruct (Student.id y =? k0) eqn:E.
  - apply Z.eqb_eq in E.
    assert ((Student.id s' =? k) = false) as -> by (apply Z.eqb_neq; congruence).
    assert ((Student.id y =? k) = false) as -> by (apply Z.eqb_neq; congruence).
    exact IH.
  - now rewrite IH.
Qed.

(** X15.  What [admin_edit_student] accepts is what is found afterwards: for
    an administrator's POST for a stored student, with every required field
    and a roll number that is the student's own or no student's, the row
    under the same key holds the submitted fields (an empty device id stored
    as none), every other student is found as before, and the attendance
    rows, which refer to the key, are untouched. *)
Theorem edited_student_is_found st sess url sid s0 roll name batch course year dev :
  login_required (Session.role sess) "admin" = true ->
  Student_get st sid = Some s0 ->
  roll = Student.roll_number s0 \/ Student_by_roll st (Some roll) = None ->
  exists st',
    admin_edit_student st sess POST url sid
      (mkform (Some roll) (Some name) (Some batch) (Some course) (Some year) dev)
    = (Http (Redirect "/admin/students" [("Student updated successfully!", "success")]),
       st')
    /\ Student_get st' sid
       = Some (Student.mk sid roll name batch course year (or_None dev))
    /\ (forall k, k <> sid -> Student_get st' k = Student_get st k)
    /\ attendance st' = attendance st.
Proof.
  intros Hadm Hget Hroll.
  destruct (find_key_in _ _ _ _ Hget) as [_ Hid].
  eexists. split.
  - unfold admin_edit_student. rewrite Hadm, Hget. cbn [negb f_roll f_name f_batch
      f_course f_year f_device_id].
    destruct (column_is (Student.roll_number s0) (Some roll)) eqn:Hsame; cbn [negb].
    + reflexivity.
    + destruct Hroll as [->|Hnone].
      * simpl in Hsame. now rewrite String.eqb_refl in Hsame.
      * rewrite Hnone. reflexivity.
  - rewrite Hid. unfold Student_get. cbn [students set_students attendance].
    repeat split.
    + rewrite find_key_edit_same by reflexivity.
      fold (Student_get st sid). now rewrite Hget.
    + intros k Hk. now apply find_key_edit_other.
Qed.

(** ** Export *)

Lemma for_each_total {A B : Type} (body : A -> option B) (l : list A) :
  (forall x, In x l -> body x <> None) ->
  exists ys, for_each body l = Some ys /\ List.length ys = List.length l.
Proof.
  induction l as [|x l IH]; simpl; intros H; [now exists []|].
  destruct (body x) as [y|] eqn:Hx; [|exfalso; apply (H x); auto].
  destruct IH as (ys & -> & Hlen); [intros z Hz; apply H; auto|].
  exists (y :: ys). simpl. auto.
Qed.

Lemma for_each_raises {A B : Type} (body : A -> option B) (l : list A) (x : A) :
  In x l -> body x = None -> for_each body l = None.
Proof.
  induction l as [|y l IH]; simpl; [tauto|].
  intros [->|Hin] Hx.
  - now rewrite Hx.
  - destruct (body y); [|reflexivity]. now rewrite IH.
Qed.

Lemma find_key_found {A : Type} (key : A -> Z) (l : list A) (k : Z) :
  In k (map key l) -> find (fun y => key y =? k) l <> None.
Proof.
  intros Hin H. apply in_map_iff in Hin. destruct Hin as (x & Hk & Hx).
  pose proof (find_none _ _ H x Hx) as Hf. simpl in Hf.
  apply Z.eqb_neq in Hf. contradiction.
Qed.

(** X16.  When every attendance row refers to a stored student, which
    requests handled one after another keep, the export of a stored class
    session does not raise:
    it answers with the CSV whose rows are the header and one row per
    attendance row of that class session, in table order.  When some row of
    the class session refers to no student, it raises. *)
Theorem export_session_rows lib st sess now sid cs :
  login_required (Session.role sess) "admin" = true ->
  ClassSession_get st sid = Some cs ->
  let records := filter (fun r => Attendance.class_session_id r =? ClassSession.id cs)
                        (attendance st) in
  (attendance_refers st ->
   exists rows,
     admin_export lib st sess POST now (Some "session") (inr sid)
     = Csv [Str "attendance_session_"; Int (ClassSession.id cs); Str "_";
            Iso_date (ClassSession.date cs); Str ".csv"]
           (session_header :: rows)
     /\ for_each (session_row st cs) records = Some rows
     /\ List.length rows = List.length records)
  /\ (forall r, In r records -> Student_get st (Attendance.student_id r) = None ->
      admin_export lib st sess POST now (Some "session") (inr sid)
      = Http (Raise "AttributeError")).
Proof.
  intros Hadm Hcs records.
  unfold admin_export. rewrite Hadm, Hcs.
  cbn [negb column_is String.eqb Ascii.eqb Bool.eqb]. fold records.
  split.
  - intros Hrefs.
    destruct (for_each_total (session_row st cs) records) as (rows & Hrows & Hlen).
    { intros r Hr. apply filter_In in Hr. destruct Hr as [Hr _].
      unfold session_row, Attendance_student, Student_get.
      pose proof (find_key_found Student.id (students st) _ (proj1 (Hrefs r Hr))) as Hf.
      destruct (find _ _); [discriminate|contradiction]. }
    exists rows. rewrite Hrows. auto.
  - intros r Hr Hnone.
    rewrite (for_each_raises (session_row st cs) records r Hr); [reflexivity|].
    unfold session_row, Attendance_student. now rewrite Hnone.
Qed.

(** X17.  With any mode other than "session", the export writes every
    attendance row: when every attendance row refers to a stored student and
    a stored class session and the ordering returns rows of the table, the
    answer is the CSV named after the day of the request, with the header
    and one row per ordered attendance row, and nothing raises. *)
Theorem export_all_rows lib st sess now mode session_id :
  login_required (Session.role sess) "admin" = true ->
  column_is "session" mode = false ->
  attendance_refers st ->
  (forall a, In a (order_by_timestamp_desc lib (attendance st)) ->
             In a (attendance st)) ->
  exists rows,
    admin_export lib st sess POST now mode session_id
    = Csv [Str "attendance_all_"; Iso_date (date_of now); Str ".csv"]
          (all_header :: rows)
    /\ for_each (all_row st) (order_by_timestamp_desc lib (attendance st))
       = Some rows
    /\ List.length rows
       = List.length (order_by_timestamp_desc lib (attendance st)).
Proof.
  intros Hadm Hmode Hrefs Horder.
  unfold admin_export. rewrite Hadm, Hmode. cbn [negb].
  destruct (for_each_total (all_row st)
              (order_by_timestamp_desc lib (attendance st)))
    as (rows & Hrows & Hlen).
  { intros r Hr. apply Horder in Hr. destruct (Hrefs r Hr) as [Hs Hc].
    unfold all_row, Attendance_student, Attendance_class_session, Student_get,
      ClassSession_get.
    pose proof (find_key_found Student.id _ _ Hs) as Hfs.
    pose proof (find_key_found ClassSession.id _ _ Hc) as Hfc.
    destruct (find _ (class_sessions st)); [|contradiction].
    destruct (find _ (students st)); [discriminate|contradiction]. }
  exists rows. rewrite Hrows. auto.
Qed.

(** ** Teacher panel *)

Lemma date_of_day (t d : Z) :
  date_of t = d <-> d * 86400000000 <= t < (d + 1) * 86400000000.
Proof.
  unfold date_of. split.
  - intros <-. pose proof (Z.div_mod t 86400000000 ltac:(lia)) as H.
    pose proof (Z.mod_pos_bound t 86400000000 ltac:(lia)) as Hm. lia.
  - intros H. symmetry. apply (Z.div_unique t 86400000000 d (t - d * 86400000000)); lia.
Qed.

(** X18.  A class session that [admin_create_session] stores for teacher [t]
    on day [d] is on that teacher's dashboard at every instant of day [d]
    and at no other instant, and on no other teacher's dashboard; and every
    class session on a dashboard is one of the logged-in teacher's, dated
    the day of the request. *)
Theorem created_session_on_dashboard lib st sess_admin c b r t d s e :
  login_required (Session.role sess_admin) "admin" = true ->
  exists cs st',
    admin_create_session lib st sess_admin POST (Some c) (Some b) (Some r)
                         (inr t) (inr d) (inr s) (inr e)
    = (Http (Redirect "/admin/dashboard" [("Session created!", "success")]), st')
    /\ class_sessions st' = class_sessions st ++ [cs]
    /\ ClassSession.teacher_id cs = t /\ ClassSession.date cs = d
    /\ ClassSession_get st' (ClassSession.id cs) = Some cs
    /\ forall sess now,
         Session.role sess = Some "teacher" ->
         exists l,
           teacher_dashboard st' sess now = teacher_dashboard_html l
           /\ (In cs l <-> Session.user_id sess = Some t
                           /\ d * 86400000000 <= now < (d + 1) * 86400000000)
           /\ (forall x, In x l ->
                 Session.user_id sess = Some (ClassSession.teacher_id x)
                 /\ ClassSession.date x = date_of now).
Proof.
  intros Hadm.
  set (cs := ClassSession.mk (fresh_id (map ClassSession.id (class_sessions st)))
                             c b r t d s e).
  exists cs, (set_class_sessions st (class_sessions st ++ [cs])).
  split; [|split; [|split; [|split; [|split]]]]; try reflexivity.
  - unfold admin_create_session. rewrite Hadm. reflexivity.
  - unfold ClassSession_get. cbn [class_sessions set_class_sessions].
    rewrite find_app_r by (apply find_key_none, fresh_id_not_in).
    cbn [find]. now rewrite Z.eqb_refl.
  - intros sess now Hrole. eexists. unfold teacher_dashboard.
    rewrite Hrole. cbn [login_required negb String.eqb Ascii.eqb Bool.eqb].
    split; [reflexivity|].
    assert (Hcond : forall x,
              column_is_int (ClassSession.teacher_id x) (Session.user_id sess)
              && (ClassSession.date x =? date_of now) = true
              <-> Session.user_id sess = Some (ClassSession.teacher_id x)
                  /\ ClassSession.date x = date_of now).
    { intros x. rewrite andb_true_iff, Z.eqb_eq. unfold column_is_int.
      destruct (Session.user_id sess) as [k|].
      - rewrite Z.eqb_eq. split; intros [H1 H2]; split; congruence.
      - split; intros [H1 H2]; discriminate. }
    split.
    + rewrite filter_In, Hcond. cbn [class_sessions set_class_sessions].
      change (ClassSession.teacher_id cs) with t.
      change (ClassSession.date cs) with d.
      rewrite <- (date_of_day now d).
      split.
      * intros [_ [H1 H2]]. auto.
      * intros [H1 H2]. split; [apply in_or_app; right; now left|auto].
    + intros x Hx. apply filter_In in Hx. now apply Hcond.
Qed.

(** ** Tokens and scans, one request after another *)

Lemma find_app_first {A : Type} (p : A -> bool) (l l' : list A) (x : A) :
  find p l = Some x -> find p (l ++ l') = Some x.
Proof.
  induction l as [|y l IH]; simpl; [discriminate|].
  destruct (p y); auto.
Qed.

Lemma find_key_map {A : Type} (key : A -> Z) (f : A -> A) (l : list A) (k : Z) :
  (forall y, key (f y) = key y) ->
  find (fun y => key y =? k) (map f l)
  = option_map f (find (fun y => key y =? k) l).
Proof.
  intros Hf. induction l as [|y l IH]; simpl; [reflexivity|].
  rewrite Hf. destruct (key y =? k); [reflexivity|exact IH].
Qed.

Lemma deactivate_for_id cid q :
  QRSession.id (QRSession_deactivate_for cid q) = QRSession.id q.
Proof. unfold QRSession_deactivate_for. now destruct (_ && _). Qed.

(** The token that a key resolves to, after a code has been issued. *)
Lemma QRSession_get_after_issue st cid qs sid q :
  QRSession_get st sid = Some q ->
  QRSession_get
    (set_qr_sessions st (map (QRSession_deactivate_for cid) (qr_sessions st) ++ [qs]))
    sid = Some (QRSession_deactivate_for cid q).
Proof.
  unfold QRSession_get. destruct (pk_of_string sid) as [k|]; [|discriminate].
  cbn [qr_sessions set_qr_sessions]. intros H.
  apply find_app_first.
  rewrite (find_key_map QRSession.id) by apply deactivate_for_id.
  now rewrite H.
Qed.

(** X19.  Issuing a new code for a class session revokes the codes issued
    for it before: a token reference that validated before the request is
    answered "Invalid or inactive QR session" at every instant after it,
    although it may not have expired, and a form submitted through it records
    nothing. *)
Theorem superseded_token_is_rejected st role now tok sid' tok' exp cs st'
    t0 token_id secret qs :
  accepted st t0 token_id secret qs ->
  admin_generate_qr st role now tok (QRSession.class_session_id qs)
  = (Render_admin_qr sid' tok' exp cs, st') ->
  forall t nd roll,
    validate st' t token_id secret = (invalid_or_inactive, st')
    /\ check_in st' t nd token_id secret roll = (invalid_or_inactive, st').
Proof.
  intros Hacc H.
  apply admin_generate_qr_inv in H. destruct H as (_ & _ & _ & _ & ->).
  intros t nd roll.
  pose proof (QRSession_get_after_issue st (QRSession.class_session_id qs)
                (QRSession.mk (fresh_id (map QRSession.id (qr_sessions st)))
                   (QRSession.class_session_id qs) tok now
                   (now + timedelta_seconds 30) true)
                _ _ (acc_get _ _ _ _ _ Hacc)) as Hget.
  rewrite deactivate_for_same in Hget by reflexivity.
  unfold validate, check_in, student_scan.
  cbn [method url args_sid args_token form_roll].
  rewrite (acc_sid _ _ _ _ _ Hacc), (acc_token _ _ _ _ _ Hacc). cbn [negb orb].
  rewrite Hget. cbn [QRSession.active QRSession.deactivate negb].
  rewrite orb_true_r. split; reflexivity.
Qed.

(** X20.  Issuing a code for one class session does not touch the codes of
    the others: whatever [admin_generate_qr] does for class session [cid],
    a scan through a stored token of another class session gets the answer
    it would have got before. *)
Theorem other_sessions_tokens_survive st role now tok cid q t nd req :
  QRSession_get st (text (args_sid req)) = Some q ->
  QRSession.class_session_id q <> cid ->
  fst (student_scan (snd (admin_generate_qr st role now tok cid)) t nd req)
  = fst (student_scan st t nd req).
Proof.
  intros Hget Hne.
  destruct (admin_generate_qr_effect st role now tok cid) as [->|(cs & _ & ->)];
    [reflexivity|].
  pose proof (QRSession_get_after_issue st cid
                (QRSession.mk (fresh_id (map QRSession.id (qr_sessions st)))
                   cid tok now (now + timedelta_seconds 30) true)
                _ _ Hget) as Hget'.
  rewrite deactivate_for_other in Hget' by exact Hne.
  unfold student_scan. rewrite Hget', Hget.
  unfold ClassSession_get, Student_first, Attendance_first.
  cbn [class_sessions students attendance set_qr_sessions].
  repeat match goal with
         | |- context [if ?b then _ else _] => destruct b
         | |- context [match ?x with _ => _ end] => destruct x
         end; reflexivity.
Qed.

(** X21.  A token is not used up by a scan, and scans of different pairs do
    not disturb each other: when a check-in for (student A, class session)
    succeeds, a check-in for another pair that would have succeeded on the
    database before succeeds on the database after, through the same token
    or another, and both rows are stored. *)
Theorem check_ins_are_independent st n1 d1 t1 s1 r1 sA csA qA st1
    n2 d2 t2 s2 r2 sB csB qB st2 :
  check_in st n1 d1 t1 s1 r1 = (Render_student_success sA csA qA, st1) ->
  check_in st n2 d2 t2 s2 r2 = (Render_student_success sB csB qB, st2) ->
  (Student.id sB, ClassSession.id csB) <> (Student.id sA, ClassSession.id csA) ->
  exists a b,
    check_in st1 n2 d2 t2 s2 r2
    = (Render_student_success sB csB qB,
       set_attendance st (attendance st ++ [a; b]))
    /\ attendance_pair a = (Student.id sA, ClassSession.id csA)
    /\ attendance_pair b = (Student.id sB, ClassSession.id csB)
    /\ Attendance.id a <> Attendance.id b.
Proof.
  intros H1 H2 Hne.
  apply student_scan_success_inv in H1. apply student_scan_success_inv in H2.
  cbn [method args_sid args_token form_roll] in H1, H2.
  destruct H1 as (_ & _ & _ & _ & _ & _ & ->).
  destruct H2 as (Hacc & _ & Hroll & Hcs & Hs & Hnone & _).
  set (a := Attendance.mk (fresh_id (map Attendance.id (attendance st)))
                          (Student.id sA) (ClassSession.id csA) d1 "Present").
  set (st1 := set_attendance st (attendance st ++ [a])).
  set (b := Attendance.mk (fresh_id (map Attendance.id (attendance st1)))
                          (Student.id sB) (ClassSession.id csB) d2 "Present").
  exists a, b.
  assert (Hacc1 : accepted st1 n2 t2 s2 qB) by (destruct Hacc; constructor; auto).
  split; [|split; [reflexivity|split; [reflexivity|]]].
  - pass_validation Hacc1. rewrite Hroll. cbn [negb].
    change (ClassSession_get st1 (QRSession.class_session_id qB))
      with (ClassSession_get st (QRSession.class_session_id qB)).
    rewrite Hcs.
    change (Student_first st1) with (Student_first st). rewrite Hs.
    assert (Hnone1 : Attendance_first st1 (Student.id sB) (ClassSession.id csB) = None).
    { unfold Attendance_first in *. unfold st1. cbn [attendance set_attendance].
      rewrite find_app_r by exact Hnone. cbn [find].
      unfold Attendance_filter_by. cbn [Attendance.student_id
        Attendance.class_session_id a].
      destruct (Student.id sA =? Student.id sB) eqn:E1; [|reflexivity].
      destruct (ClassSession.id csA =? ClassSession.id csB) eqn:E2; [|reflexivity].
      apply Z.eqb_eq in E1, E2. exfalso. apply Hne. congruence. }
    rewrite Hnone1. fold b. unfold st1, set_attendance.
    cbn [admins teachers students class_sessions qr_sessions attendance].
    rewrite <- app_assoc. reflexivity.
  - subst a b. cbn [Attendance.id]. unfold st1. cbn [attendance set_attendance].
    rewrite map_app. cbn [map Attendance.id].
    intros Heq.
    apply (fresh_id_not_in
             (map Attendance.id (attendance st)
              ++ [fresh_id (map Attendance.id (attendance st))])).
    rewrite <- Heq. apply in_or_app. right. now left.
Qed.

(** X22.  Attendance is recorded only through a live token and only for a
    student of the class: when a scan answers with the success page, the
    token it came through is stored, active, not expired and has the
    submitted secret, the class session is the token's, and the student is
    stored with the submitted roll number and with the batch and the course
    of that class session. *)
Theorem success_needs_live_token_and_cohort st now nd req s cs qs st' :
  student_scan st now nd req = (Render_student_success s cs qs, st') ->
  accepted st now (args_sid req) (args_token req) qs
  /\ In qs (qr_sessions st)
  /\ In cs (class_sessions st)
  /\ ClassSession.id cs = QRSession.class_session_id qs
  /\ In s (students st)
  /\ Some (Student.roll_number s) = form_roll req
  /\ Student.batch s = ClassSession.batch cs
  /\ Student.course s = ClassSession.course cs.
Proof.
  intros H. apply student_scan_success_inv in H.
  destruct H as (Hacc & _ & Hroll & Hcs & Hs & _ & _).
  pose proof (acc_get _ _ _ _ _ Hacc) as Hget. unfold QRSession_get in Hget.
  destruct (pk_of_string _); [|discriminate].
  apply find_some in Hget. apply find_key_in in Hcs. apply find_some in Hs.
  destruct Hs as [Hin Hs]. unfold Student_filter_by in Hs.
  apply andb_true_iff in Hs. destruct Hs as [Hs Hc].
  apply andb_true_iff in Hs. destruct Hs as [Hr Hb].
  apply String.eqb_eq in Hr, Hb, Hc.
  destruct (form_roll req) as [[|ch roll]|]; try discriminate.
  simpl in Hr. split; [exact Hacc|]. repeat split; try tauto; congruence.
Qed.

(** X23.  Revocation is permanent: whatever request comes next, a token
    that is stored inactive stays stored, in its place, as it is.  No handler
    sets [active] back to true. *)
Theorem inactive_token_stays_inactive lib st st' i q :
  step lib st st' ->
  nth_error (qr_sessions st) i = Some q ->
  QRSession.active q = false ->
  nth_error (qr_sessions st') i = Some q.
Proof.
  intros Hstep.
  destruct Hstep as [x h|x sess meth u f|x sess meth u sid f|x sess sid
                    |x sess meth u name username hashed
                    |x sess meth course batch room teacher date start end_
                    |x role now tok cid Htok|x now nd req];
    intros Hq Hact.
  - unfold create_default_admin. now destruct (admins x).
  - destruct (admin_add_student_effect x sess meth u f)
      as [->|(? & ? & ? & ? & ? & _ & _ & ->)]; exact Hq.
  - destruct (admin_edit_student_effect x sess meth u sid f)
      as [->|(? & ? & ? & ? & ? & ? & _ & _ & _ & ->)]; exact Hq.
  - destruct (admin_delete_student_effect x sess sid)
      as [->|(? & _ & _ & ->)]; exact Hq.
  - destruct (admin_add_teacher_effect x sess meth u name username hashed)
      as [->|(? & ? & ? & _ & _ & _ & _ & ->)]; exact Hq.
  - destruct (admin_create_session_effect lib x sess meth course batch room
                teacher date start end_)
      as [->|(? & ? & ? & ? & ? & ? & ? & _ & _ & _ & _ & _ & _ & _ & ->)];
      exact Hq.
  - destruct (admin_generate_qr_effect x role now tok cid)
      as [->|(cs & _ & ->)]; [exact Hq|].
    cbn [qr_sessions set_qr_sessions].
    rewrite nth_error_app1
      by (rewrite length_map; apply nth_error_Some; congruence).
    rewrite nth_error_map, Hq. cbn [option_map].
    unfold QRSession_deactivate_for. now rewrite Hact, andb_false_r.
  - destruct (student_scan_tables x now nd req) as (-> & _). exact Hq.
Qed.

(** X24.  Expiry only goes one way: on the same database, a token reference
    that validates at an instant validates at every earlier instant with the
    same answer, and one that is answered "QR expired" at an instant is
    answered so at every later instant. *)
Theorem expiry_is_monotone st t t' token_id secret :
  t <= t' ->
  (forall ocs qs, validate st t' token_id secret = (Render_student_scan ocs qs, st) ->
                  validate st t token_id secret = (Render_student_scan ocs qs, st))
  /\ (validate st t token_id secret = (qr_expired, st) ->
      validate st t' token_id secret = (qr_expired, st)).
Proof.
  intros Hle. split.
  - intros ocs qs H. apply validate_success_inv in H.
    destruct H as (Hacc & -> & _).
    apply validate_accepted. destruct Hacc. constructor; auto. lia.
  - unfold validate, student_scan.
    cbn [method url args_sid args_token form_roll].
    destruct (_ || _); [discriminate|].
    destruct (QRSession_get st _) as [qs|]; [|discriminate].
    destruct (_ || _); [discriminate|].
    destruct (t >? QRSession.expires_at qs) eqn:E; [|discriminate].
    apply gtb_true_gt in E.
    assert ((t' >? QRSession.expires_at qs) = true) as ->
      by (apply gtb_true_gt; lia).
    reflexivity.
Qed.

(** ** The properties on the small installation *)

Lemma reachable_db7 : reachable Install.lib Install.db7.
Proof.
  unfold Install.db7, Install.db6, Install.db5, Install.db4, Install.db3,
    Install.db2, Install.db1.
  eapply reach_step; [|apply step_student_scan].
  eapply reach_step; [|apply step_admin_generate_qr; discriminate].
  eapply reach_step; [|apply step_admin_add_student].
  eapply reach_step; [|apply step_admin_add_student].
  eapply reach_step; [|apply step_admin_add_student].
  eapply reach_step; [|apply step_admin_create_session].
  eapply reach_step; [|apply step_admin_add_teacher].
  eapply reach_step; [|apply step_create_default_admin].
  apply reach_empty.
Defined.

Lemma db7_tables :
  students Install.db7
  = [Install.stu1; Student.mk 2 "R002" "Ravi" "B2" "CS101" "2" (Some "");
     Install.stu3]
  /\ class_sessions Install.db7 = [Install.cs1]
  /\ qr_sessions Install.db7 = [Install.qr1]
  /\ attendance Install.db7 = [Attendance.mk 1 1 1 1728000003000001 "Present"]
  /\ teachers Install.db7 = [Teacher.mk 1 "T. Rao" "rao" "hash:chalk"]
  /\ admins Install.db7 = [Admin.mk 1 "admin" "hash:admin123"].
Proof. repeat split; reflexivity. Qed.

Lemma reachable_unique_roll_numbers_witness : unique_roll_numbers Install.db7.
Proof.
  apply (reachable_unique_roll_numbers Install.lib). exact reachable_db7.
Defined.

Lemma reachable_unique_usernames_witness : unique_usernames Install.db7.
Proof.
  apply (reachable_unique_usernames Install.lib). exact reachable_db7.
Defined.

Lemma request_keeps_attendance_refers_witness :
  attendance_refers Install.db6 /\ attendance_refers Install.db7.
Proof.
  assert (H6 : attendance_refers Install.db6) by (intros a []).
  split; [exact H6|].
  apply (request_keeps_attendance_refers Install.lib Install.db6 Install.db7).
  - apply step_student_scan.
  - exact H6.
Defined.

Lemma request_keeps_one_record_per_pair_witness :
  one_record_per_pair Install.db6 /\ one_record_per_pair Install.db7.
Proof.
  assert (H6 : one_record_per_pair Install.db6) by constructor.
  split; [exact H6|].
  apply (request_keeps_one_record_per_pair Install.lib Install.db6 Install.db7).
  - apply step_student_scan.
  - exact H6.
Defined.

Lemma reachable_at_most_one_active_witness : at_most_one_active Install.db7.
Proof.
  apply (reachable_at_most_one_active Install.lib). exact reachable_db7.
Defined.

Lemma reachable_tokens_well_formed_witness :
  wf_store Install.db7
  /\ forall now nd req,
       fst (student_scan Install.db7 now nd req) <> Raise "AttributeError".
Proof.
  apply (reachable_tokens_well_formed Install.lib). exact reachable_db7.
Defined.

Lemma default_admin_can_log_in_witness :
  exists a,
    admins (create_default_admin empty_db "hash:admin123") = [a]
    /\ Admin.username a = "admin"
    /\ login Install.lib (create_default_admin empty_db "hash:admin123")
             Install.nobody POST (Some "admin") (Some "admin") (Some "admin123")
       = (Http (Redirect "/admin/dashboard" []),
          Session.mk (Some "admin") (Some (Admin.id a))).
Proof.
  apply (default_admin_can_log_in Install.lib empty_db Install.nobody "hash:admin123");
    reflexivity.
Defined.

Lemma added_teacher_can_log_in_witness :
  exists t st',
    admin_add_teacher Install.db1 Install.as_admin POST "/admin/add_teacher"
                      (Some "T. Rao") (Some "rao") (inr "hash:chalk")
    = (Http (Redirect "/admin/dashboard" [("Teacher added successfully!", "success")]),
       st')
    /\ teachers st' = teachers Install.db1 ++ [t]
    /\ Teacher.name t = "T. Rao" /\ Teacher.username t = "rao"
    /\ ~ In (Teacher.id t) (map Teacher.id (teachers Install.db1))
    /\ login Install.lib st' Install.nobody POST (Some "teacher") (Some "rao")
             (Some "chalk")
       = (Http (Redirect "/teacher/dashboard" []),
          Session.mk (Some "teacher") (Some (Teacher.id t))).
Proof.
  apply (added_teacher_can_log_in Install.lib Install.db1 Install.as_admin
           Install.nobody "/admin/add_teacher" "T. Rao" "rao" "hash:chalk"
           (Some "chalk")); reflexivity.
Defined.

Lemma admin_handlers_require_admin_witness :
  admin_delete_student Install.db7 Install.as_teacher 1
  = (Http (Redirect "/" []), Install.db7).
Proof.
  apply (admin_handlers_require_admin Install.lib Install.db7 Install.as_teacher).
  discriminate.
Defined.

Lemma teacher_session_is_not_admin_witness :
  login Install.lib Install.db7 Install.nobody POST (Some "teacher") (Some "rao")
        (Some "chalk")
  = (Http (Redirect "/teacher/dashboard" []), Install.as_teacher)
  /\ admin_delete_student Install.db7 Install.as_teacher 1
     = (Http (Redirect "/" []), Install.db7)
  /\ teacher_view Install.db7 (snd (logout Install.as_teacher)) 1
     = Http (Redirect "/" []).
Proof.
  assert (H : login Install.lib Install.db7 Install.nobody POST (Some "teacher")
                    (Some "rao") (Some "chalk")
              = (Http (Redirect "/teacher/dashboard" []), Install.as_teacher))
    by reflexivity.
  split; [exact H|].
  destruct (teacher_session_is_not_admin Install.lib Install.db7 Install.db7
              Install.nobody (Some "rao") (Some "chalk") _ _ _ H)
    as (_ & _ & _ & _ & Hdel & _ & _ & Hview).
  split; [apply Hdel|apply Hview].
Defined.

Lemma added_student_is_found_witness :
  exists s st',
    admin_add_student Install.db3 Install.as_admin POST "/admin/add_student"
                      Install.asha
    = (Http (Redirect "/admin/dashboard" [("Student added successfully!", "success")]),
       st')
    /\ s = Student.mk (Student.id s) "R001" "Asha" "B1" "CS101" "2" None
    /\ students st' = students Install.db3 ++ [s]
    /\ ~ In (Student.id s) (map Student.id (students Install.db3))
    /\ Student_by_roll st' (Some "R001") = Some s
    /\ Student_get st' (Student.id s) = Some s
    /\ Student_first st' "R001" "B1" "CS101" = Some s
    /\ has_attendance st' (Student.id s) = false.
Proof.
  apply (added_student_is_found Install.db3 Install.as_admin "/admin/add_student"
           "R001" "Asha" "B1" "CS101" "2" None).
  - reflexivity.
  - reflexivity.
  - intros a [].
Defined.

Lemma deleted_student_is_forgotten_witness :
  exists st',
    admin_delete_student Install.db7 Install.as_admin 1
    = (Http (Redirect "/admin/students" [("Student deleted successfully!", "success")]),
       st')
    /\ Student_get st' 1 = None
    /\ has_attendance st' 1 = false
    /\ (forall k, k <> 1 -> Student_get st' k = Student_get Install.db7 k)
    /\ (forall a, In a (attendance st')
                  <-> In a (attendance Install.db7) /\ Attendance.student_id a <> 1)
    /\ class_sessions st' = class_sessions Install.db7
    /\ qr_sessions st' = qr_sessions Install.db7.
Proof.
  apply (deleted_student_is_forgotten Install.db7 Install.as_admin 1 Install.stu1);
    reflexivity.
Defined.

Lemma edited_student_is_found_witness :
  exists st',
    admin_edit_student Install.db7 Install.as_admin POST "/admin/edit_student/1" 1
      (mkform (Some "R001") (Some "Asha K.") (Some "B2") (Some "CS101") (Some "3")
              (Some ""))
    = (Http (Redirect "/admin/students" [("Student updated successfully!", "success")]),
       st')
    /\ Student_get st' 1
       = Some (Student.mk 1 "R001" "Asha K." "B2" "CS101" "3" (or_None (Some "")))
    /\ (forall k, k <> 1 -> Student_get st' k = Student_get Install.db7 k)
    /\ attendance st' = attendance Install.db7.
Proof.
  apply (edited_student_is_found Install.db7 Install.as_admin "/admin/edit_student/1"
           1 Install.stu1 "R001" "Asha K." "B2" "CS101" "3" (Some "")).
  - reflexivity.
  - reflexivity.
  - left. reflexivity.
Defined.

Lemma export_session_rows_witness :
  admin_export Install.lib Install.db7 Install.as_admin POST 1728000100000000
               (Some "session") (inr 1)
  = Csv [Str "attendance_session_"; Int 1; Str "_"; Iso_date 20000; Str ".csv"]
        [session_header;
         [Str "R001"; Str "Asha"; Str "B1"; Str "CS101";
          Iso_datetime 1728000003000001; Str "Present"; Str "CS101"; Str "B1";
          Str "R12"; Iso_date 20000]].
Proof.
  destruct (export_session_rows Install.lib Install.db7 Install.as_admin
              1728000100000000 1 Install.cs1 eq_refl eq_refl) as [Hrows _].
  destruct (Hrows (int_refers _ (reachable_integrity _ _ reachable_db7)))
    as (rows & -> & Hfor & _).
  injection Hfor as <-. reflexivity.
Defined.

Lemma export_all_rows_witness :
  exists rows,
    admin_export Install.lib Install.db7 Install.as_admin POST 1728000100000000
                 None (inl "TypeError")
    = Csv [Str "attendance_all_"; Iso_date (date_of 1728000100000000); Str ".csv"]
          (all_header :: rows)
    /\ for_each (all_row Install.db7)
                (order_by_timestamp_desc Install.lib (attendance Install.db7))
       = Some rows
    /\ List.length rows
       = List.length (order_by_timestamp_desc Install.lib (attendance Install.db7)).
Proof.
  apply (export_all_rows Install.lib Install.db7 Install.as_admin 1728000100000000
           None (inl "TypeError")).
  - reflexivity.
  - reflexivity.
  - exact (int_refers _ (reachable_integrity _ _ reachable_db7)).
  - intros a Ha. exact Ha.
Defined.

Lemma created_session_on_dashboard_witness :
  exists cs st',
    admin_create_session Install.lib Install.db2 Install.as_admin POST
      (Some "CS101") (Some "B1") (Some "R12") (inr 1) (inr 20000) (inr 540) (inr 600)
    = (Http (Redirect "/admin/dashboard" [("Session created!", "success")]), st')
    /\ cs = Install.cs1
    /\ exists l,
         teacher_dashboard st' Install.as_teacher 1728000003000000
         = teacher_dashboard_html l
         /\ In cs l.
Proof.
  destruct (created_session_on_dashboard Install.lib Install.db2 Install.as_admin
              "CS101" "B1" "R12" 1 20000 540 600 eq_refl)
    as (cs & st' & Hreq & Htab & _ & _ & _ & Hdash).
  exists cs, st'. split; [exact Hreq|].
  assert (Hcs : cs = Install.cs1).
  { simpl in Htab. set (l := class_sessions st') in *.
    assert (Hl : l = [Install.cs1]).
    { unfold l. revert Hreq. intros [= <-]. reflexivity. }
    rewrite Hl in Htab. now injection Htab as <-. }
  split; [exact Hcs|].
  destruct (Hdash Install.as_teacher 1728000003000000 eq_refl) as (l & Hl & Hin & _).
  exists l. split; [exact Hl|]. apply Hin. split; [reflexivity|lia].
Defined.

Lemma superseded_token_is_rejected_witness :
  let st' := snd (admin_generate_qr Install.db6 (Some "admin") 1728000010000000
                                    "tok2" 1) in
  validate st' 1728000011000000 (Some "1") (Some "tok1") = (invalid_or_inactive, st')
  /\ check_in st' 1728000011000000 1728000011000001 (Some "1") (Some "tok1")
              (Some "R003")
     = (invalid_or_inactive, st').
Proof.
  apply (superseded_token_is_rejected Install.db6 (Some "admin") 1728000010000000
           "tok2" "2" "tok2" 1728000040000000 Install.cs1 _
           1728000001000000 (Some "1") (Some "tok1") Install.qr1).
  - constructor; try reflexivity. simpl. lia.
  - reflexivity.
Defined.

Lemma other_sessions_tokens_survive_witness :
  fst (student_scan
         (snd (admin_generate_qr Example.st0 (Some "admin") 7000000 "tokD" 1))
         8000000 8000001 (mkreq GET "/scan" (Some "3") (Some "tokC") None))
  = fst (student_scan Example.st0 8000000 8000001
           (mkreq GET "/scan" (Some "3") (Some "tokC") None)).
Proof.
  apply (other_sessions_tokens_survive Example.st0 (Some "admin") 7000000 "tokD" 1
           Example.qr3).
  - reflexivity.
  - discriminate.
Defined.

Lemma check_ins_are_independent_witness :
  exists a b,
    check_in Install.db7 1728000005000000 1728000005000001
             (Some "1") (Some "tok1") (Some "R003")
    = (Render_student_success Install.stu3 Install.cs1 Install.qr1,
       set_attendance Install.db6 (attendance Install.db6 ++ [a; b]))
    /\ attendance_pair a = (1, 1)
    /\ attendance_pair b = (3, 1)
    /\ Attendance.id a <> Attendance.id b.
Proof.
  apply (check_ins_are_independent Install.db6
           1728000003000000 1728000003000001 (Some "1") (Some "tok1") (Some "R001")
           Install.stu1 Install.cs1 Install.qr1 Install.db7
           1728000005000000 1728000005000001 (Some "1") (Some "tok1") (Some "R003")
           Install.stu3 Install.cs1 Install.qr1
           (snd (check_in Install.db6 1728000005000000 1728000005000001
                          (Some "1") (Some "tok1") (Some "R003")))).
  - reflexivity.
  - reflexivity.
  - discriminate.
Defined.

Lemma success_needs_live_token_and_cohort_witness :
  accepted Install.db6 1728000003000000 (Some "1") (Some "tok1") Install.qr1
  /\ In Install.qr1 (qr_sessions Install.db6)
  /\ In Install.cs1 (class_sessions Install.db6)
  /\ ClassSession.id Install.cs1 = QRSession.class_session_id Install.qr1
  /\ In Install.stu1 (students Install.db6)
  /\ Some (Student.roll_number Install.stu1) = Some "R001"
  /\ Student.batch Install.stu1 = ClassSession.batch Install.cs1
  /\ Student.course Install.stu1 = ClassSession.course Install.cs1.
Proof.
  apply (success_needs_live_token_and_cohort Install.db6 1728000003000000
           1728000003000001
           (mkreq POST "/scan" (Some "1") (Some "tok1") (Some "R001"))
           Install.stu1 Install.cs1 Install.qr1 Install.db7).
  reflexivity.
Defined.

Lemma inactive_token_stays_inactive_witness :
  nth_error
    (qr_sessions (snd (admin_generate_qr Example.st0 (Some "admin") 7000000 "tokD" 1)))
    0 = Some Example.qr1.
Proof.
  apply (inactive_token_stays_inactive Install.lib Example.st0 _ 0%nat Example.qr1).
  - apply step_admin_generate_qr. discriminate.
  - reflexivity.
  - reflexivity.
Defined.

Lemma expiry_is_monotone_witness :
  (forall ocs qs,
      validate Install.db6 1728000020000000 (Some "1") (Some "tok1")
      = (Render_student_scan ocs qs, Install.db6) ->
      validate Install.db6 1728000003000000 (Some "1") (Some "tok1")
      = (Render_student_scan ocs qs, Install.db6))
  /\ (validate Install.db6 1728000003000000 (Some "1") (Some "tok1")
      = (qr_expired, Install.db6) ->
      validate Install.db6 1728000020000000 (Some "1") (Some "tok1")
      = (qr_expired, Install.db6)).
Proof.
  apply (expiry_is_monotone Install.db6 1728000003000000 1728000020000000
           (Some "1") (Some "tok1")).
  lia.
Defined.
